(** * Moondancer SoC: the design descriptor and its build script

    A shallow embedding of [gateware/soc/top.py]: the class
    [MoondancerSoc] (its constructor and its [elaborate] method) and the
    script under [if __name__ == "__main__"].

    The gateware framework (amaranth, luna, luna_soc, apollo_fpga), the
    operating system and the synthesis toolchain are outside the file; the
    script only calls them.  They appear here as an interface ([Env]) whose
    operations may answer or raise, and every call the script makes is
    recorded, in program order, in a trace. *)

From Stdlib Require Import String Ascii List ZArith Lia Bool DecimalString.
Import ListNotations.
Local Open Scope string_scope.
Local Open Scope Z_scope.

Set Implicit Arguments.

(** ** Peripherals and the SoC descriptor *)

(** The peripheral classes imported from [luna_soc.gateware.csr]. *)
Inductive Peripheral : Type :=
| LedPeripheral
| GpioPeripheral (width : Z)
| USBDeviceController
| SetupFIFOInterface
| InFIFOInterface
| OutFIFOInterface.

Definition Peripheral_eqb (p q : Peripheral) : bool :=
  match p, q with
  | LedPeripheral, LedPeripheral => true
  | GpioPeripheral w, GpioPeripheral w' => Z.eqb w w'
  | USBDeviceController, USBDeviceController => true
  | SetupFIFOInterface, SetupFIFOInterface => true
  | InFIFOInterface, InFIFOInterface => true
  | OutFIFOInterface, OutFIFOInterface => true
  | _, _ => false
  end.

(** The eptri endpoint interfaces of [luna_soc.gateware.csr.usb2.interfaces.eptri]. *)
Definition is_eptri (p : Peripheral) : bool :=
  match p with
  | SetupFIFOInterface | InFIFOInterface | OutFIFOInterface => true
  | _ => false
  end.

(** One call [self.soc.add_peripheral(self.<attr>, addr=..., as_submodule=...)].
    A keyword the call does not pass is [None]. *)
Record Registration : Type := {
  reg_attr : string;
  reg_periph : Peripheral;
  reg_addr : option Z;
  reg_as_submodule : option bool
}.

(** [Record([('rx', [('i', 1)]), ('tx', [('o', 1)])])] *)
Definition RecordLayout : Type := list (string * list (string * Z)).

Record VexRiscv : Type := {
  reset_addr : Z;
  variant : string
}.

Record LunaSoC : Type := {
  cpu : VexRiscv;
  soc_clock_frequency : Z;
  internal_sram_size : Z;
  bios_uart_pins : option RecordLayout;
  peripherals : list Registration
}.

Definition LunaSoC_new (c : VexRiscv) (clock_frequency sram : Z) : LunaSoC :=
  {| cpu := c; soc_clock_frequency := clock_frequency;
     internal_sram_size := sram; bios_uart_pins := None; peripherals := [] |}.

Definition add_bios_and_peripherals (uart_pins : RecordLayout) (soc : LunaSoC) : LunaSoC :=
  {| cpu := cpu soc; soc_clock_frequency := soc_clock_frequency soc;
     internal_sram_size := internal_sram_size soc;
     bios_uart_pins := Some uart_pins; peripherals := peripherals soc |}.

(** [soc.add_peripheral(p, **kwargs)]: the registration is appended to the
    SoC's list, in call order. *)
Definition add_peripheral (attr : string) (p : Peripheral)
    (addr : option Z) (as_submodule : option bool) (soc : LunaSoC) : LunaSoC :=
  {| cpu := cpu soc; soc_clock_frequency := soc_clock_frequency soc;
     internal_sram_size := internal_sram_size soc;
     bios_uart_pins := bios_uart_pins soc;
     peripherals := peripherals soc ++
       [ {| reg_attr := attr; reg_periph := p; reg_addr := addr;
            reg_as_submodule := as_submodule |} ] |}.

(** ** Platform resources *)

Inductive Dir : Type := dir_i | dir_o | dir_oe | dir_io.

(** [Subsignal(name, Pins(pin, conn=(connector, index), dir=d))] *)
Record Subsignal : Type := {
  sub_name : string;
  sub_pins : string;
  sub_conn : string * Z;
  sub_dir : Dir
}.

(** [Resource(name, number, *subsignals, Attrs(IO_TYPE=...))] *)
Record Resource : Type := {
  res_name : string;
  res_number : nat;
  res_subsignals : list Subsignal;
  res_attrs : list (string * string)
}.


(** Modelled from the spec: the data model's ResourceBinding
    ({logical_name, physical_pin_set, direction, electrical_attributes},
    created at elaboration time), which stands for the object that amaranth's
    [platform.request(name, number)] hands back; amaranth is not under src/.
    The pin set and the directions are the subsignals of the resource. *)
Record ResourceBinding : Type := {
  logical_name : string;
  logical_number : nat;
  physical_pin_set : list Subsignal;
  electrical_attributes : list (string * string)
}.

(** [hasattr(io.<sub>, 'oe')]: a pin has an output enable when its
    direction is "oe" or "io". *)
Definition has_oe (io : ResourceBinding) (sub : string) : bool :=
  existsb (fun s => String.eqb (sub_name s) sub &&
                    match sub_dir s with dir_oe | dir_io => true | _ => false end)
          (physical_pin_set io).

(** ** The elaborated module *)

Record USBDevice : Type := {
  bus : ResourceBinding;
  endpoints : list string
}.

(** [USBDevice(bus=io)] and [device.add_endpoint(self.<attr>)] *)
Definition USBDevice_new (io : ResourceBinding) : USBDevice :=
  {| bus := io; endpoints := [] |}.

Definition add_endpoint (attr : string) (d : USBDevice) : USBDevice :=
  {| bus := bus d; endpoints := endpoints d ++ [attr] |}.

(** Signal expressions, as far as [elaborate] builds them. *)
Inductive Value : Type :=
| Attr (path : string)                          (* a signal of the design: self.<path> *)
| IoAttr (io : ResourceBinding) (path : string) (* a signal of a requested resource: io.<path> *)
| Invert (v : Value)                            (* ~v *)
| ResetSignal (domain : string).

Inductive Statement : Type :=
| Assign (lhs rhs : Value)                          (* lhs.eq(rhs) *)
| Connect (pins : string) (io : ResourceBinding)    (* self.<pins>.connect(io) *)
| Attach (controller : string) (device : USBDevice) (* self.<controller>.attach(device) *).

Inductive Submodule : Type :=
| ClockDomainGenerator
| DomainRenamer (renames : list (string * string)) (soc : LunaSoC)
| ApolloAdvertiser
| SubUSBDevice (device : USBDevice).

(** amaranth's [Module()]: named submodules and the statements of [m.d.comb],
    both in the order they were added. *)
Record HdlModule : Type := {
  submodules : list (string * Submodule);
  comb : list Statement
}.

Definition Module_new : HdlModule := {| submodules := []; comb := [] |}.

Definition add_submodule (name : string) (sub : Submodule) (m : HdlModule) : HdlModule :=
  {| submodules := submodules m ++ [(name, sub)]; comb := comb m |}.

Definition add_comb (stmts : list Statement) (m : HdlModule) : HdlModule :=
  {| submodules := submodules m; comb := comb m ++ stmts |}.

Fixpoint assoc {A : Type} (k : string) (l : list (string * A)) : option A :=
  match l with
  | [] => None
  | (k', v) :: l' => if String.eqb k k' then Some v else assoc k l'
  end.

(** ** Exceptions, log levels and the trace of calls *)

Inductive Exn : Type :=
| SystemExit (code : Z)
| Exception (cls : string) (msg : string).

Inductive Level : Type := DEBUG | INFO | WARNING | ERROR.

Inductive ArtifactKind : Type := c_header | ld_script | svd | memory_x.

(** The platform object returned by [get_appropriate_platform()], as far as
    the script reads it: [platform.name], [str(platform)] and
    [platform.DEFAULT_CLOCK_FREQUENCIES_MHZ].  The frequencies are whole
    numbers of MHz, for which the float product with [1e6] is exact. *)
Record Platform : Type := {
  name : string;
  platform_str : string;
  DEFAULT_CLOCK_FREQUENCIES_MHZ : list (string * Z)
}.

(** What the script does to the outside, one event per call. *)
Inductive Event : Type :=
| EvConfigureDefaultLogging
| EvSetLevel (level : Level)
| EvLog (level : Level) (msg : string)
| EvPrint (msg : string)
| EvGetAppropriatePlatform
| EvAddResources (resources : list Resource)
| EvClockDomainGenerator
| EvRequest (name : string) (number : nat)
| EvSetUsbDeviceHooks
| EvPathExists (path : string) (answer : bool)
| EvMakedirs (path : string)
| EvOpen (path : string) (mode : string)
| EvClose (path : string)
| EvSocBuild (name : string) (build_dir : string) (do_init : bool)
| EvPlatformBuild (do_program : bool) (build_dir : string) (overrides : list (string * bool))
| EvToolchain
| EvLogResources
| EvGenerate (kind : ArtifactKind) (platform_name : option string) (path : string).

(** The outside world: the framework, the operating system and the
    toolchain.  [W] is its state; an operation returns the new state and
    either the exception it raised or its answer. *)
Class Env (W : Type) : Type := {
  env_get_appropriate_platform : W -> W * (Exn + option Platform);
  env_add_resources : list Resource -> W -> W * (Exn + unit);
  env_clock_domain_generator : W -> W * (Exn + unit);
  env_request : string -> nat -> W ->
                W * (Exn + (list Subsignal * list (string * string)));
  env_set_usb_device_hooks : W -> W;
  env_path_exists : string -> W -> bool;
  env_makedirs : string -> W -> W * (Exn + unit);
  env_open : string -> string -> W -> W * (Exn + unit);
  env_close : string -> W -> W * (Exn + unit);
  env_soc_build : LunaSoC -> string -> string -> bool -> W -> W * (Exn + unit);
  env_toolchain : HdlModule -> bool -> string -> list (string * bool) -> W ->
                  W * (Exn + unit);
  env_log_resources : LunaSoC -> W -> W * (Exn + unit);
  env_generate : ArtifactKind -> LunaSoC -> option string -> string -> W ->
                 W * (Exn + unit)
}.

(** ** The monad of the script: state, trace and exceptions *)

Record State (W : Type) : Type := {
  world : W;
  trace : list Event
}.

Definition M (W A : Type) : Type := State W -> State W * (Exn + A).

Definition ret {W A : Type} (a : A) : M W A := fun s => (s, inr a).

Definition bind {W A B : Type} (c : M W A) (k : A -> M W B) : M W B :=
  fun s => match c s with
           | (s', inl e) => (s', inl e)
           | (s', inr a) => k a s'
           end.

Definition raise {W A : Type} (e : Exn) : M W A := fun s => (s, inl e).

(** [try: body / except: handler]: a bare [except] takes every exception;
    what [body] did before it raised stays done. *)
Definition try_except {W A : Type} (body : M W A) (handler : Exn -> M W A) : M W A :=
  fun s => match body s with
           | (s', inl e) => handler e s'
           | (s', inr a) => (s', inr a)
           end.

(** [try: body / finally: cleanup], as the [with] statement needs it. *)
Definition try_finally {W A : Type} (body : M W A) (cleanup : M W unit) : M W A :=
  fun s => match body s with
           | (s', inl e) =>
               match cleanup s' with
               | (s'', inl e') => (s'', inl e')
               | (s'', inr _) => (s'', inl e)
               end
           | (s', inr a) =>
               match cleanup s' with
               | (s'', inl e') => (s'', inl e')
               | (s'', inr _) => (s'', inr a)
               end
           end.

Declare Scope script_scope.
Delimit Scope script_scope with script.
Notation "x <- c1 ;; c2" := (bind c1 (fun x => c2))
  (at level 61, c1 at next level, right associativity) : script_scope.
Notation "c1 ;; c2" := (bind c1 (fun _ => c2))
  (at level 61, right associativity) : script_scope.
Local Open Scope script_scope.

Definition emit {W : Type} (ev : Event) : M W unit :=
  fun s => ({| world := world s; trace := trace s ++ [ev] |}, inr tt).

(** Calling the outside: the world changes, the trace does not. *)
Definition call {W A : Type} (op : W -> W * (Exn + A)) : M W A :=
  fun s => let '(w, r) := op (world s) in ({| world := w; trace := trace s |}, r).

Definition ask {W A : Type} (q : W -> A) : M W A :=
  fun s => (s, inr (q (world s))).

(** ** The calls of the script *)

Section Calls.
Context {W : Type} `{Env W}.

Definition logging_info (msg : string) : M W unit := emit (EvLog INFO msg).
Definition logging_warn (msg : string) : M W unit := emit (EvLog WARNING msg).
Definition logging_error (msg : string) : M W unit := emit (EvLog ERROR msg).
Definition print (msg : string) : M W unit := emit (EvPrint msg).

(** [sys.exit(code)] raises [SystemExit(code)]. *)
Definition sys_exit {A : Type} (code : Z) : M W A := raise (SystemExit code).

Definition configure_default_logging : M W unit := emit EvConfigureDefaultLogging.
Definition logging_setLevel (level : Level) : M W unit := emit (EvSetLevel level).

Definition get_appropriate_platform : M W (option Platform) :=
  emit EvGetAppropriatePlatform ;;
  call env_get_appropriate_platform.

Definition platform_add_resources (resources : list Resource) : M W unit :=
  emit (EvAddResources resources) ;;
  call (env_add_resources resources).

Definition platform_clock_domain_generator : M W Submodule :=
  emit EvClockDomainGenerator ;;
  call env_clock_domain_generator ;;
  ret ClockDomainGenerator.

(** [platform.request(name, number)]; [number] is 0 when the call leaves it out. *)
Definition platform_request (name : string) (number : nat) : M W ResourceBinding :=
  emit (EvRequest name number) ;;
  r <- call (env_request name number) ;;
  ret {| logical_name := name; logical_number := number;
         physical_pin_set := fst r; electrical_attributes := snd r |}.

(** [platform.usb_device_hooks = {}] *)
Definition platform_set_usb_device_hooks : M W unit :=
  emit EvSetUsbDeviceHooks ;;
  fun s => ({| world := env_set_usb_device_hooks (world s); trace := trace s |}, inr tt).

Definition os_path_exists (path : string) : M W bool :=
  b <- ask (env_path_exists path) ;;
  emit (EvPathExists path b) ;;
  ret b.

Definition os_makedirs (path : string) : M W unit :=
  emit (EvMakedirs path) ;;
  call (env_makedirs path).

(** [with open(path, mode) as f: body]: the file is closed however [body] ends. *)
Definition with_open {A : Type} (path mode : string) (body : M W A) : M W A :=
  emit (EvOpen path mode) ;;
  call (env_open path mode) ;;
  try_finally body (emit (EvClose path) ;; call (env_close path)).

(** [design.soc.build(name=..., build_dir=..., do_init=...)] *)
Definition soc_build (soc : LunaSoC) (name build_dir : string) (do_init : bool) : M W unit :=
  emit (EvSocBuild name build_dir do_init) ;;
  call (env_soc_build soc name build_dir do_init).

(** [Introspect(soc).log_resources()] *)
Definition log_resources (soc : LunaSoC) : M W unit :=
  emit EvLogResources ;;
  call (env_log_resources soc).

(** [Generate(soc).<kind>(platform_name=..., file=f)], [f] being the file
    opened at [path]. *)
Definition generate (soc : LunaSoC) (kind : ArtifactKind)
    (platform_name : option string) (path : string) : M W unit :=
  emit (EvGenerate kind platform_name path) ;;
  call (env_generate kind soc platform_name path).

End Calls.

(** [os.path.join(a, b)] *)
Definition ends_with_slash (a : string) : bool :=
  match get (String.length a - 1) a with
  | Some c => Ascii.eqb c "/"%char
  | None => false
  end.

Definition os_path_join (a b : string) : string :=
  if String.prefix "/" b then b
  else if String.eqb a "" || ends_with_slash a then a ++ b
  else a ++ "/" ++ b.

(** [str(n)] for an integer *)
Definition str_int (n : Z) : string := NilEmpty.string_of_int (Z.to_int n).

(** The status the process ends with: 0 when the script runs off its end,
    the code of an uncaught [SystemExit], 1 for any other uncaught
    exception. *)
Definition exit_status {A : Type} (r : Exn + A) : Z :=
  match r with
  | inr _ => 0
  | inl (SystemExit code) => code
  | inl (Exception _ _) => 1
  end.

(** ** The class [MoondancerSoc] *)

Module MoondancerSoc.

Definition ADDITIONAL_RESOURCES : list Resource :=
  [ (* PMOD B: UART *)
    {| res_name := "uart"; res_number := 1%nat;
       res_subsignals :=
         [ {| sub_name := "rx"; sub_pins := "1"; sub_conn := ("pmod", 1); sub_dir := dir_i |};
           {| sub_name := "tx"; sub_pins := "2"; sub_conn := ("pmod", 1); sub_dir := dir_oe |} ];
       res_attrs := [("IO_TYPE", "LVCMOS33")] |};
    (* PMOD B: JTAG *)
    {| res_name := "jtag"; res_number := 0%nat;
       res_subsignals :=
         [ {| sub_name := "tms"; sub_pins := "7";  sub_conn := ("pmod", 1); sub_dir := dir_i |};
           {| sub_name := "tdi"; sub_pins := "8";  sub_conn := ("pmod", 1); sub_dir := dir_i |};
           {| sub_name := "tdo"; sub_pins := "9";  sub_conn := ("pmod", 1); sub_dir := dir_o |};
           {| sub_name := "tck"; sub_pins := "10"; sub_conn := ("pmod", 1); sub_dir := dir_i |} ];
       res_attrs := [("IO_TYPE", "LVCMOS33")] |} ].

(** The attributes [__init__] sets on [self].  The peripheral objects
    ([self.leds], [self.usb0_ep_in], ...) are named by their attribute in
    [soc]'s registrations. *)
Record self : Type := {
  uart_pins : RecordLayout;
  soc : LunaSoC
}.

Definition __init__ (clock_frequency : Z) : self :=
  (* Create a stand-in for our UART. *)
  let uart_pins := [("rx", [("i", 1)]); ("tx", [("o", 1)])] in
  (* Create our SoC... *)
  let soc := LunaSoC_new {| reset_addr := 0x00000000; variant := "cynthion+jtag" |}
                         clock_frequency 65536 in
  (* ... add bios and core peripherals ... *)
  let soc := add_bios_and_peripherals uart_pins soc in
  (* ... add our LED peripheral, for simple output ... *)
  let soc := add_peripheral "leds" LedPeripheral (Some 0xf0001000) None soc in
  (* ... add two gpio peripherals for our PMOD connectors ... *)
  let soc := add_peripheral "gpioa" (GpioPeripheral 8) (Some 0xf0002000) None soc in
  let soc := add_peripheral "gpiob" (GpioPeripheral 8) (Some 0xf0002100) None soc in
  (* ... and the core USB controllers and eptri peripherals ... *)
  let soc := add_peripheral "usb0" USBDeviceController (Some 0xf0003000) None soc in
  let soc := add_peripheral "usb0_ep_control" SetupFIFOInterface None (Some false) soc in
  let soc := add_peripheral "usb0_ep_in" InFIFOInterface None (Some false) soc in
  let soc := add_peripheral "usb0_ep_out" OutFIFOInterface None (Some false) soc in

  let soc := add_peripheral "usb1" USBDeviceController (Some 0xf0004000) None soc in
  let soc := add_peripheral "usb1_ep_control" SetupFIFOInterface None (Some false) soc in
  let soc := add_peripheral "usb1_ep_in" InFIFOInterface None (Some false) soc in
  let soc := add_peripheral "usb1_ep_out" OutFIFOInterface None (Some false) soc in

  let soc := add_peripheral "usb2" USBDeviceController (Some 0xf0005000) None soc in
  let soc := add_peripheral "usb2_ep_control" SetupFIFOInterface None (Some false) soc in
  let soc := add_peripheral "usb2_ep_in" InFIFOInterface None (Some false) soc in
  let soc := add_peripheral "usb2_ep_out" OutFIFOInterface None (Some false) soc in
  {| uart_pins := uart_pins; soc := soc |}.


Section Elaborate.
Context {W : Type} `{Env W}.

(** [elaborate], first lines: the additional resources, the clock domain
    generator and the SoC. *)
Definition elaborate_clocking (self : self) : M W HdlModule :=
  let m := Module_new in
  (* add additional resource *)
  platform_add_resources ADDITIONAL_RESOURCES ;;
  (* generate our domain clocks/resets *)
  car <- platform_clock_domain_generator ;;
  let m := add_submodule "car" car m in
  (* add SoC to design and clock it off the 60 MHz "usb" domain *)
  let m := add_submodule "soc" (DomainRenamer [("sync", "usb")] (soc self)) m in
  ret m.

(** wire up the cpu external reset signal *)
Definition wire_cpu_reset (m : HdlModule) : M W HdlModule :=
  try_except
    (user1_io <- platform_request "button_user" 0 ;;
     ret (add_comb [Assign (Attr "soc.cpu.ext_reset") (IoAttr user1_io "i")] m))
    (fun _ =>
       logging_warn "Platform does not support a user button for cpu reset" ;;
       ret m).

(** PMOD A, UART1, JTAG0, the usb device hooks and the ApolloAdvertiser *)
Definition connect_io (m : HdlModule) : M W HdlModule :=
  (* connect GPIO0 to Cynthion's PMOD A port *)
  pmoda_io <- platform_request "user_pmod" 0 ;;
  let m := add_comb [Connect "gpioa.pins" pmoda_io] m in
  (* connect UART1 to Cynthion's PMOD B port *)
  uart1_io <- platform_request "uart" 1 ;;
  let m := add_comb [ Assign (IoAttr uart1_io "tx.o") (Attr "uart_pins.tx");
                      Assign (Attr "uart_pins.rx") (IoAttr uart1_io "rx") ] m in
  let m := if has_oe uart1_io "tx"
           then add_comb [Assign (IoAttr uart1_io "tx.oe")
                                 (Invert (Attr "soc.uart._phy.tx.rdy"))] m
           else m in
  (* connect JTAG0 to Cynthion's PMOD B port *)
  jtag0_io <- platform_request "jtag" 0 ;;
  let m := add_comb [ Assign (Attr "soc.cpu.jtag_tms") (IoAttr jtag0_io "tms.i");
                      Assign (Attr "soc.cpu.jtag_tdi") (IoAttr jtag0_io "tdi.i");
                      Assign (IoAttr jtag0_io "tdo.o") (Attr "soc.cpu.jtag_tdo");
                      Assign (Attr "soc.cpu.jtag_tck") (IoAttr jtag0_io "tck.i");
                      Assign (Attr "soc.cpu.dbg_reset") (ResetSignal "usb") ] m in
  (* disable platform usb device hooks *)
  platform_set_usb_device_hooks ;;
  (* add ApolloAdvertiser so we can claim the Control port *)
  let m := add_submodule "apollo_adv" ApolloAdvertiser m in
  ret m.

(** target_phy *)
Definition bind_usb0 (m : HdlModule) : M W HdlModule :=
  ulpi0 <- platform_request "target_phy" 0 ;;
  let usb0_device := USBDevice_new ulpi0 in
  let usb0_device := add_endpoint "usb0_ep_control" usb0_device in
  let usb0_device := add_endpoint "usb0_ep_in" usb0_device in
  let usb0_device := add_endpoint "usb0_ep_out" usb0_device in
  let m := add_comb [Attach "usb0" usb0_device] m in
  let m := add_submodule "usb0_device" (SubUSBDevice usb0_device) m in
  ret m.

(** aux_phy *)
Definition bind_usb1 (m : HdlModule) : M W HdlModule :=
  ulpi1 <- try_except (platform_request "aux_phy" 0)
                      (fun _ => platform_request "host_phy" 0) ;;
  let usb1_device := USBDevice_new ulpi1 in
  let usb1_device := add_endpoint "usb1_ep_control" usb1_device in
  let usb1_device := add_endpoint "usb1_ep_in" usb1_device in
  let usb1_device := add_endpoint "usb1_ep_out" usb1_device in
  let m := add_comb [Attach "usb1" usb1_device] m in
  let m := add_submodule "usb1_device" (SubUSBDevice usb1_device) m in
  ret m.

(** control_phy *)
Definition bind_usb2 (m : HdlModule) : M W HdlModule :=
  ulpi2 <- try_except (platform_request "control_phy" 0)
                      (fun _ => platform_request "sideband_phy" 0) ;;
  let usb2_device := USBDevice_new ulpi2 in
  let usb2_device := add_endpoint "usb2_ep_control" usb2_device in
  let usb2_device := add_endpoint "usb2_ep_in" usb2_device in
  let usb2_device := add_endpoint "usb2_ep_out" usb2_device in
  let m := add_comb [Attach "usb2" usb2_device] m in
  let m := add_submodule "usb2_device" (SubUSBDevice usb2_device) m in
  ret m.

(** [elaborate(self, platform)]: the blocks above, in the order of the source. *)
Definition elaborate (self : self) : M W HdlModule :=
  m <- elaborate_clocking self ;;
  m <- wire_cpu_reset m ;;
  m <- connect_io m ;;
  (* create our USB devices, connect device controllers and add eptri
     endpoint handlers *)
  m <- bind_usb0 m ;;
  m <- bind_usb1 m ;;
  m <- bind_usb2 m ;;
  ret m.

End Elaborate.

End MoondancerSoc.

(** ** The script under [if __name__ == "__main__"]

    The script is cut at its own comments into phases; [main] runs them in
    the order of the source. *)

Section Main.
Context {W : Type} `{Env W}.

Definition build_dir : string := "build".

(** [platform.build(design, do_program=..., build_dir=..., **overrides)]:
    amaranth elaborates the design against the platform, which runs
    [design.elaborate(platform)], and hands the result to the toolchain. *)
Definition platform_build (design : MoondancerSoc.self) (do_program : bool)
    (build_dir : string) (overrides : list (string * bool)) : M W unit :=
  emit (EvPlatformBuild do_program build_dir overrides) ;;
  m <- MoondancerSoc.elaborate design ;;
  emit EvToolchain ;;
  call (env_toolchain m do_program build_dir overrides).

(** [if not os.path.exists(path): <log>; os.makedirs(path)], the statement
    the script repeats for each directory; only the first one logs. *)
Definition ensure_dir (path : string) (log : option string) : M W unit :=
  present <- os_path_exists path ;;
  if negb present
  then match log with
       | Some msg => logging_info msg ;; os_makedirs path
       | None => os_makedirs path
       end
  else ret tt.

(** configure logging, select platform.  The assignment
    [MustUse._MustUse__silence = True] before it only silences a warning of
    amaranth and is left out. *)
Definition select_platform : M W Platform :=
  (* configure logging *)
  configure_default_logging ;;
  logging_setLevel DEBUG ;;
  (* select platform *)
  platform <- get_appropriate_platform ;;
  match platform with
  | None =>
      logging_error "Failed to identify a supported platform" ;;
      sys_exit 1
  | Some platform => ret platform
  end.

(** configure clock frequency, create design *)
Definition create_design (platform : Platform) : M W MoondancerSoc.self :=
  clock_frequency <-
    match assoc "usb" (DEFAULT_CLOCK_FREQUENCIES_MHZ platform) with
    | Some mhz => ret (mhz * 1000000)
    | None => raise (Exception "KeyError" "'usb'")
    end ;;
  logging_info ("Building for " ++ platform_str platform ++
                " with clock frequency: " ++ str_int clock_frequency) ;;
  ret (MoondancerSoc.__init__ clock_frequency).

Definition thirdparty : string :=
  os_path_join build_dir "lambdasoc.soc.cpu/bios/3rdparty/litex".

(** TODO fix litex build; build litex bios *)
Definition build_bios (design : MoondancerSoc.self) : M W unit :=
  ensure_dir thirdparty
    (Some ("Fixing build, creating output directory: " ++ thirdparty)) ;;
  logging_info "Building bios" ;;
  soc_build (MoondancerSoc.soc design) "soc" build_dir true.

(** build soc *)
Definition build_soc (design : MoondancerSoc.self) : M W unit :=
  logging_info "Building soc" ;;
  let overrides := [("debug_verilog", true); ("verbose", false)] in
  platform_build design false build_dir overrides.

(** log resources, generate artifacts *)
Definition generate_artifacts (platform : Platform) (design : MoondancerSoc.self)
    : M W unit :=
  log_resources (MoondancerSoc.soc design) ;;
  let generate := generate (MoondancerSoc.soc design) in
  (* generate: c-header and ld-script *)
  let path := os_path_join build_dir "genc" in
  ensure_dir path None ;;
  logging_info ("Generating c-header and ld-script: " ++ path) ;;
  with_open (os_path_join path "resources.h") "w"
    (generate c_header (Some (name platform)) (os_path_join path "resources.h")) ;;
  with_open (os_path_join path "soc.ld") "w"
    (generate ld_script None (os_path_join path "soc.ld")) ;;
  (* generate: svd file *)
  let path := os_path_join build_dir "gensvd" in
  ensure_dir path None ;;
  logging_info ("Generating svd file: " ++ path) ;;
  with_open (os_path_join path "lunasoc.svd") "w"
    (generate svd None (os_path_join path "lunasoc.svd")) ;;
  (* generate: rust memory.x file *)
  let path := os_path_join build_dir "genrust" in
  ensure_dir path None ;;
  logging_info ("Generating memory.x file: " ++ path) ;;
  with_open (os_path_join path "memory.x") "w"
    (generate memory_x None (os_path_join path "memory.x")).

Definition completion_message : string :=
  "Build completed. Use 'make load' to load bitstream to device.".

Definition main : M W unit :=
  platform <- select_platform ;;
  design <- create_design platform ;;
  build_bios design ;;
  build_soc design ;;
  generate_artifacts platform design ;;
  print completion_message.

End Main.

(** ** A simulated outside world

    A small world to run the script on: a platform with a table of
    resources, and a file system that is a list of existing paths.  A
    resource can be requested once; a request for a name listed in
    [sim_faults] raises the exception listed with it; a directory is made
    with its parents; a file opens for writing when its directory exists. *)

Record SimWorld : Type := {
  sim_platform : option Platform;
  sim_resources : list Resource;
  sim_faults : list (string * Exn);
  sim_requested : list (string * nat);
  sim_paths : list string;
  sim_written : list (string * ArtifactKind)
}.

Definition same_resource (name : string) (number : nat) (r : Resource) : bool :=
  String.eqb (res_name r) name && Nat.eqb (res_number r) number.

Definition mem_string (x : string) (l : list string) : bool :=
  existsb (String.eqb x) l.

Fixpoint split_on (c : ascii) (s : string) : list string :=
  match s with
  | EmptyString => [""]
  | String a s' =>
      if Ascii.eqb a c then "" :: split_on c s'
      else match split_on c s' with
           | [] => [String a ""]
           | h :: t => String a h :: t
           end
  end.

(** The paths [c1], [c1/c2], ... of the components [c1; c2; ...]. *)
Fixpoint paths_upto (pre : string) (comps : list string) : list string :=
  match comps with
  | [] => []
  | c :: cs =>
      let p := if String.eqb pre "" then c else pre ++ "/" ++ c in
      p :: paths_upto p cs
  end.

Definition dirname (path : string) : string :=
  last (paths_upto "" (removelast (split_on "/"%char path))) "".

Definition sim_set_paths (ps : list string) (w : SimWorld) : SimWorld :=
  {| sim_platform := sim_platform w; sim_resources := sim_resources w;
     sim_faults := sim_faults w; sim_requested := sim_requested w; sim_paths := ps;
     sim_written := sim_written w |}.

Definition sim_add_resources (rs : list Resource) (w : SimWorld) : SimWorld * (Exn + unit) :=
  if existsb (fun r => existsb (same_resource (res_name r) (res_number r)) (sim_resources w)) rs
  then (w, inl (Exception "NameError" "resource has the same name and number"))
  else ({| sim_platform := sim_platform w; sim_resources := sim_resources w ++ rs;
           sim_faults := sim_faults w; sim_requested := sim_requested w; sim_paths := sim_paths w;
           sim_written := sim_written w |}, inr tt).

Definition sim_request (name : string) (number : nat) (w : SimWorld)
    : SimWorld * (Exn + (list Subsignal * list (string * string))) :=
  match assoc name (sim_faults w), find (same_resource name number) (sim_resources w) with
  | Some e, _ => (w, inl e)
  | None, None => (w, inl (Exception "ResourceError" ("Resource " ++ name ++ " does not exist")))
  | None, Some r =>
      if existsb (fun q => String.eqb (fst q) name && Nat.eqb (snd q) number) (sim_requested w)
      then (w, inl (Exception "ResourceError" ("Resource " ++ name ++ " has already been requested")))
      else ({| sim_platform := sim_platform w; sim_resources := sim_resources w;
               sim_faults := sim_faults w;
               sim_requested := sim_requested w ++ [(name, number)];
               sim_paths := sim_paths w; sim_written := sim_written w |},
            inr (res_subsignals r, res_attrs r))
  end.

Definition sim_makedirs (path : string) (w : SimWorld) : SimWorld * (Exn + unit) :=
  if mem_string path (sim_paths w)
  then (w, inl (Exception "FileExistsError" path))
  else (sim_set_paths
          (sim_paths w ++
           filter (fun p => negb (mem_string p (sim_paths w)))
                  (paths_upto "" (split_on "/"%char path))) w,
        inr tt).

Definition sim_open (path mode : string) (w : SimWorld) : SimWorld * (Exn + unit) :=
  if String.eqb (dirname path) "" || mem_string (dirname path) (sim_paths w)
  then (if mem_string path (sim_paths w) then w
        else sim_set_paths (sim_paths w ++ [path]) w, inr tt)
  else (w, inl (Exception "FileNotFoundError" path)).

Definition sim_generate (kind : ArtifactKind) (soc : LunaSoC)
    (platform_name : option string) (path : string) (w : SimWorld)
    : SimWorld * (Exn + unit) :=
  ({| sim_platform := sim_platform w; sim_resources := sim_resources w;
      sim_faults := sim_faults w;
      sim_requested := sim_requested w; sim_paths := sim_paths w;
      sim_written := sim_written w ++ [(path, kind)] |}, inr tt).

#[export] Instance sim_env : Env SimWorld := {
  env_get_appropriate_platform w := (w, inr (sim_platform w));
  env_add_resources := sim_add_resources;
  env_clock_domain_generator w := (w, inr tt);
  env_request := sim_request;
  env_set_usb_device_hooks w := w;
  env_path_exists path w := mem_string path (sim_paths w);
  env_makedirs := sim_makedirs;
  env_open := sim_open;
  env_close _ w := (w, inr tt);
  env_soc_build _ _ _ _ w := (w, inr tt);
  env_toolchain _ _ _ _ w := (w, inr tt);
  env_log_resources _ w := (w, inr tt);
  env_generate := sim_generate
}.

Definition sim_resource (name : string) (number : nat) : Resource :=
  {| res_name := name; res_number := number;
     res_subsignals := [ {| sub_name := "io"; sub_pins := "0";
                            sub_conn := (name, 0); sub_dir := dir_io |} ];
     res_attrs := [] |}.

Definition sim_platform_info : Platform :=
  {| name := "Simulated Cynthion"; platform_str := "<SimulatedPlatform>";
     DEFAULT_CLOCK_FREQUENCIES_MHZ := [("fast", 240); ("sync", 120); ("usb", 60)] |}.

Definition sim_world (platform : option Platform) (resources : list (string * nat))
    (paths : list string) : SimWorld :=
  {| sim_platform := platform;
     sim_resources := map (fun r => sim_resource (fst r) (snd r)) resources;
     sim_faults := [];
     sim_requested := []; sim_paths := paths; sim_written := [] |}.

Definition start {W : Type} (w : W) : State W := {| world := w; trace := [] |}.

(** A board with every resource the design asks for first. *)
Definition sim_full : SimWorld :=
  sim_world (Some sim_platform_info)
    [ ("button_user", 0%nat); ("user_pmod", 0%nat); ("user_pmod", 1%nat);
      ("target_phy", 0%nat); ("aux_phy", 0%nat); ("control_phy", 0%nat) ] [].

(** A board with the older PHY names and no user button. *)
Definition sim_legacy : SimWorld :=
  sim_world (Some sim_platform_info)
    [ ("user_pmod", 0%nat); ("user_pmod", 1%nat);
      ("target_phy", 0%nat); ("host_phy", 0%nat); ("sideband_phy", 0%nat) ] [].

(** A board without the target PHY. *)
Definition sim_no_target : SimWorld :=
  sim_world (Some sim_platform_info)
    [ ("button_user", 0%nat); ("user_pmod", 0%nat);
      ("aux_phy", 0%nat); ("control_phy", 0%nat) ] [].

(** A board with neither "aux_phy" nor "host_phy". *)
Definition sim_no_aux : SimWorld :=
  sim_world (Some sim_platform_info)
    [ ("button_user", 0%nat); ("user_pmod", 0%nat);
      ("target_phy", 0%nat); ("control_phy", 0%nat) ] [].

(** No supported platform attached. *)
Definition sim_none : SimWorld := sim_world None [] [].


(** ** The address map *)

(** The registrations that carry an explicit base address, with it. *)
Definition explicit_bases (soc : LunaSoC) : list (Registration * Z) :=
  flat_map (fun r => match reg_addr r with
                     | Some a => [(r, a)]
                     | None => []
                     end) (peripherals soc).

(** An entry of width [w] at [b] covers the addresses [b .. b + w - 1]. *)
Definition ranges_overlap (b1 w1 b2 w2 : Z) : Prop :=
  b1 < b2 + w2 /\ b2 < b1 + w1.

Definition aligned (granule base : Z) : Prop := base mod granule = 0.

(** The room the address map leaves an entry: 0x100 for the tightly packed
    GPIO units, a page of 0x1000 for the others. *)
Definition window_limit (r : Registration) : Z :=
  match reg_periph r with
  | GpioPeripheral _ => 0x100
  | _ => 0x1000
  end.

(** Each entry ends at or before the base of the next. *)
Fixpoint chained (w : Registration -> Z) (l : list (Registration * Z)) : Prop :=
  match l with
  | [] => True
  | e1 :: tl =>
      match tl with
      | [] => True
      | e2 :: _ => snd e1 + w (fst e1) <= snd e2 /\ chained w tl
      end
  end.

(** Modelled from the spec: the address-map allocator behind
    [LunaSoC.add_peripheral], which is not under src/.  Section 4.1: base
    addresses are the caller's, and "optional peripherals bound with
    as_submodule=False share address space with their parent controller
    rather than receiving independent ranges".  The parent is the latest
    registration with a base address of its own; [allocate] gives every
    registration the base its registers are reached at. *)
Fixpoint allocate (parent : option Z) (regs : list Registration)
    : list (string * option Z) :=
  match regs with
  | [] => []
  | r :: rs =>
      match reg_addr r, reg_as_submodule r with
      | Some a, _ => (reg_attr r, Some a) :: allocate (Some a) rs
      | None, Some false => (reg_attr r, parent) :: allocate parent rs
      | None, _ => (reg_attr r, None) :: allocate parent rs
      end
  end.

Definition base_of (attr : string) (soc : LunaSoC) : option Z :=
  match assoc attr (allocate None (peripherals soc)) with
  | Some b => b
  | None => None
  end.

Definition eptri_registrations (soc : LunaSoC) : list Registration :=
  filter (fun r => is_eptri (reg_periph r)) (peripherals soc).

(** The controller an endpoint attribute belongs to: "usb1_ep_in" is an
    endpoint of "usb1". *)
Definition controller_of (attr : string) : string := substring 0 4 attr.


(** ** Stages of elaboration and of the script *)

Section Stages.
Context {W : Type} `{Env W}.

(** [elaborate] up to the "target_phy", the "aux_phy" and the
    "control_phy" block. *)
Definition before_usb0 (self : MoondancerSoc.self) : M W HdlModule :=
  m <- MoondancerSoc.elaborate_clocking self ;;
  m <- MoondancerSoc.wire_cpu_reset m ;;
  MoondancerSoc.connect_io m.

Definition before_usb1 (self : MoondancerSoc.self) : M W HdlModule :=
  m <- before_usb0 self ;;
  MoondancerSoc.bind_usb0 m.

Definition before_usb2 (self : MoondancerSoc.self) : M W HdlModule :=
  m <- before_usb1 self ;;
  MoondancerSoc.bind_usb1 m.

(** [elaborate] from the PMOD A request on. *)
Definition after_cpu_reset (m : HdlModule) : M W HdlModule :=
  m <- MoondancerSoc.connect_io m ;;
  m <- MoondancerSoc.bind_usb0 m ;;
  m <- MoondancerSoc.bind_usb1 m ;;
  m <- MoondancerSoc.bind_usb2 m ;;
  ret m.

End Stages.

(** What a USB block leaves in the module once its PHY is bound to [io]. *)
Definition usb_device (ctrl : string) (io : ResourceBinding) : USBDevice :=
  {| bus := io;
     endpoints := [ctrl ++ "_ep_control"; ctrl ++ "_ep_in"; ctrl ++ "_ep_out"] |}.

Definition with_usb (ctrl : string) (io : ResourceBinding) (m : HdlModule) : HdlModule :=
  add_submodule (ctrl ++ "_device") (SubUSBDevice (usb_device ctrl io))
    (add_comb [Attach ctrl (usb_device ctrl io)] m).

(** The resource the USB device submodule [device_name] of [m] is bound to. *)
Definition usb_bus (device_name : string) (m : HdlModule) : option ResourceBinding :=
  match assoc device_name (submodules m) with
  | Some (SubUSBDevice d) => Some (bus d)
  | _ => None
  end.

(** Does [m] assign the design signal [path]? *)
Definition drives (path : string) (m : HdlModule) : bool :=
  existsb (fun st => match st with
                     | Assign (Attr p) _ => String.eqb p path
                     | _ => false
                     end) (comb m).

Definition button_warning : Event :=
  EvLog WARNING "Platform does not support a user button for cpu reset".

Definition log_event {W : Type} (ev : Event) (s : State W) : State W :=
  {| world := world s; trace := trace s ++ [ev] |}.

(** The events [elaborate] can emit. *)
Definition elaboration_event (ev : Event) : bool :=
  match ev with
  | EvAddResources _ | EvClockDomainGenerator | EvRequest _ _
  | EvSetUsbDeviceHooks | EvLog WARNING _ => true
  | _ => false
  end.

(** [c] only emits events that satisfy [P], and never rewrites the trace. *)
Definition emits_only {W A : Type} (P : Event -> bool) (c : M W A) : Prop :=
  forall s s' r, c s = (s', r) ->
    exists evs, trace s' = (trace s ++ evs)%list /\ forallb P evs = true.

(** The simulated board [w] with requests for the names in [faults] raising. *)
Definition sim_with_faults (faults : list (string * Exn)) (w : SimWorld) : SimWorld :=
  {| sim_platform := sim_platform w; sim_resources := sim_resources w;
     sim_faults := faults; sim_requested := sim_requested w;
     sim_paths := sim_paths w; sim_written := sim_written w |}.

Definition design60 : MoondancerSoc.self := MoondancerSoc.__init__ 60000000.

(** A USB block with a fallback list: the preferred PHY when its request
    answers, else the alternate when that answers, else the failure of the
    alternate. *)
Definition falls_back {W : Type} `{Env W} (block : HdlModule -> M W HdlModule)
    (ctrl preferred alternate : string) : Prop :=
  forall (m : HdlModule) (s : State W),
    (forall s1 io,
        platform_request preferred 0 s = (s1, inr io) ->
        block m s = (s1, inr (with_usb ctrl io m))) /\
    (forall s1 e s2 io,
        platform_request preferred 0 s = (s1, inl e) ->
        platform_request alternate 0 s1 = (s2, inr io) ->
        block m s = (s2, inr (with_usb ctrl io m))) /\
    (forall s1 e s2 e',
        platform_request preferred 0 s = (s1, inl e) ->
        platform_request alternate 0 s1 = (s2, inl e') ->
        block m s = (s2, inl e')).

(** ** Views of the trace *)

(** The events that touch the build tree: directory checks and creations,
    files opened and closed, generator runs, the bios build and the
    toolchain run. *)
Definition artifact_event (ev : Event) : bool :=
  match ev with
  | EvPathExists _ _ | EvMakedirs _ | EvOpen _ _ | EvClose _
  | EvGenerate _ _ _ | EvSocBuild _ _ _ | EvToolchain => true
  | _ => false
  end.

Definition artifact_view (evs : list Event) : list Event := filter artifact_event evs.

Definition is_print (ev : Event) : bool :=
  match ev with EvPrint _ => true | _ => false end.

Definition is_toolchain (ev : Event) : bool :=
  match ev with EvToolchain => true | _ => false end.

Definition is_generate (ev : Event) : bool :=
  match ev with EvGenerate _ _ _ => true | _ => false end.

(** The files opened, with their mode, and the generators run, in order. *)
Definition opened (evs : list Event) : list (string * string) :=
  flat_map (fun ev => match ev with EvOpen p mode => [(p, mode)] | _ => [] end) evs.

Definition generated (evs : list Event) : list (ArtifactKind * string) :=
  flat_map (fun ev => match ev with EvGenerate k _ p => [(k, p)] | _ => [] end) evs.

Definition made (evs : list Event) : list string :=
  flat_map (fun ev => match ev with EvMakedirs p => [p] | _ => [] end) evs.

(** A directory made on demand: checked, and made when the check says it
    is absent. *)
Definition on_demand (path : string) (present : bool) : list Event :=
  if present then [EvPathExists path true]
  else [EvPathExists path false; EvMakedirs path].

(** A file written by one generator run. *)
Definition written (kind : ArtifactKind) (platform_name : option string)
    (path : string) : list Event :=
  [EvOpen path "w"; EvGenerate kind platform_name path; EvClose path].

(** Every event that satisfies [b] has an event that satisfies [a] before it. *)
Fixpoint all_after (a b : Event -> bool) (l : list Event) : bool :=
  match l with
  | [] => true
  | x :: l' => negb (b x) && (a x || all_after a b l')
  end.

Definition fixing_message : string :=
  "Fixing build, creating output directory: " ++ thirdparty.

Definition overrides : list (string * bool) :=
  [("debug_verilog", true); ("verbose", false)].

(** The run from [s] goes through to the end and prints the completion
    message. *)
Definition runs_to_completion {W : Type} `{Env W} (s : State W) : Prop :=
  exists sf, main s = (sf, inr tt) /\ In (EvPrint completion_message) (trace sf).
(** * Properties *)

Unset Implicit Arguments.

(** ** Runs on concrete inputs *)

Example os_path_join_relative : os_path_join "build" "genc" = "build/genc".
Proof. reflexivity. Qed.

Example os_path_join_trailing_slash : os_path_join "build/" "genc" = "build/genc".
Proof. reflexivity. Qed.

Example os_path_join_absolute : os_path_join "build" "/tmp/out" = "/tmp/out".
Proof. reflexivity. Qed.

Example thirdparty_path : thirdparty = "build/lambdasoc.soc.cpu/bios/3rdparty/litex".
Proof. reflexivity. Qed.

Example str_int_clock : str_int (60 * 1000000) = "60000000".
Proof. reflexivity. Qed.

Example dirname_artifact : dirname "build/genc/resources.h" = "build/genc".
Proof. reflexivity. Qed.

Example init_registers_fifteen_peripherals :
  length (peripherals (MoondancerSoc.soc design60)) = 15%nat.
Proof. reflexivity. Qed.

Example main_without_platform :
  snd (main (start sim_none)) = inl (SystemExit 1) /\
  trace (fst (main (start sim_none))) =
    [ EvConfigureDefaultLogging; EvSetLevel DEBUG; EvGetAppropriatePlatform;
      EvLog ERROR "Failed to identify a supported platform" ].
Proof. split; reflexivity. Qed.

Example elaborate_full_requests :
  trace (fst (MoondancerSoc.elaborate design60 (start sim_full))) =
    [ EvAddResources MoondancerSoc.ADDITIONAL_RESOURCES; EvClockDomainGenerator;
      EvRequest "button_user" 0; EvRequest "user_pmod" 0; EvRequest "uart" 1;
      EvRequest "jtag" 0; EvSetUsbDeviceHooks; EvRequest "target_phy" 0;
      EvRequest "aux_phy" 0; EvRequest "control_phy" 0 ].
Proof. vm_compute. reflexivity. Qed.

Example elaborate_legacy_requests :
  trace (fst (MoondancerSoc.elaborate design60 (start sim_legacy))) =
    [ EvAddResources MoondancerSoc.ADDITIONAL_RESOURCES; EvClockDomainGenerator;
      EvRequest "button_user" 0; button_warning;
      EvRequest "user_pmod" 0; EvRequest "uart" 1;
      EvRequest "jtag" 0; EvSetUsbDeviceHooks; EvRequest "target_phy" 0;
      EvRequest "aux_phy" 0; EvRequest "host_phy" 0;
      EvRequest "control_phy" 0; EvRequest "sideband_phy" 0 ].
Proof. vm_compute. reflexivity. Qed.

Example elaborate_full_submodules :
  option_map (fun m => map fst (submodules m))
    (match snd (MoondancerSoc.elaborate design60 (start sim_full)) with
     | inr m => Some m
     | inl _ => None
     end) =
  Some ["car"; "soc"; "apollo_adv"; "usb0_device"; "usb1_device"; "usb2_device"].
Proof. vm_compute. reflexivity. Qed.

(** The UART of PMOD B has an output enable on tx (its direction is "oe"),
    so the design drives it. *)
Example elaborate_full_uart_oe :
  match snd (MoondancerSoc.elaborate design60 (start sim_full)) with
  | inr m =>
      existsb (fun st => match st with
                         | Assign (IoAttr io "tx.oe") (Invert (Attr "soc.uart._phy.tx.rdy")) =>
                             String.eqb (logical_name io) "uart"
                         | _ => false
                         end) (comb m)
  | inl _ => false
  end = true.
Proof. vm_compute. reflexivity. Qed.

(** A width of 0x101 at gpioa reaches into gpiob: the room of 0x100 is all
    the map leaves there. *)
Example gpioa_wider_than_its_room_overlaps :
  ranges_overlap 0xf0002000 0x101 0xf0002100 0x1.
Proof. unfold ranges_overlap. lia. Qed.

(** ** The address map *)

Lemma chained_tail : forall w e l, chained w (e :: l) -> chained w l.
Proof.
  intros w e [|e2 l] Hc; simpl in *; [exact I | tauto].
Qed.

Lemma chained_head_le :
  forall w l e j ej,
    (forall x, In x (e :: l) -> 0 < w (fst x)) ->
    chained w (e :: l) ->
    nth_error l j = Some ej ->
    snd e + w (fst e) <= snd ej.
Proof.
  intros w l; induction l as [|e2 l IH]; intros e j ej Hpos Hc Hj.
  - destruct j; discriminate.
  - destruct Hc as [Hle Hc]. destruct j as [|j]; simpl in Hj.
    + inversion Hj; subst. exact Hle.
    + assert (Hp2 : 0 < w (fst e2)) by (apply Hpos; simpl; auto).
      assert (H2 : snd e2 + w (fst e2) <= snd ej).
      { apply (IH e2 j ej); auto. intros x Hx. apply Hpos. simpl in *. tauto. }
      lia.
Qed.

Lemma chained_ordered :
  forall w l i j ei ej,
    (forall x, In x l -> 0 < w (fst x)) ->
    chained w l ->
    (i < j)%nat ->
    nth_error l i = Some ei ->
    nth_error l j = Some ej ->
    snd ei + w (fst ei) <= snd ej.
Proof.
  intros w l; induction l as [|e l IH]; intros i j ei ej Hpos Hc Hij Hi Hj.
  - destruct i; discriminate.
  - destruct j as [|j]; [lia|]. destruct i as [|i]; simpl in Hi, Hj.
    + inversion Hi; subst. eapply chained_head_le; eauto.
    + apply (IH i j); auto.
      * intros x Hx. apply Hpos. simpl; auto.
      * eapply chained_tail; eauto.
      * lia.
Qed.

Lemma chained_disjoint :
  forall w l i j ei ej,
    (forall x, In x l -> 0 < w (fst x)) ->
    chained w l ->
    i <> j ->
    nth_error l i = Some ei ->
    nth_error l j = Some ej ->
    ~ ranges_overlap (snd ei) (w (fst ei)) (snd ej) (w (fst ej)).
Proof.
  intros w l i j ei ej Hpos Hc Hne Hi Hj [H1 H2].
  destruct (Nat.lt_ge_cases i j) as [Hlt|Hge].
  - pose proof (chained_ordered w l i j ei ej Hpos Hc Hlt Hi Hj). lia.
  - assert (Hlt : (j < i)%nat) by lia.
    pose proof (chained_ordered w l j i ej ei Hpos Hc Hlt Hj Hi). lia.
Qed.

Lemma explicit_bases_init :
  forall clock_frequency : Z,
    explicit_bases (MoondancerSoc.soc (MoondancerSoc.__init__ clock_frequency)) =
    [ ({| reg_attr := "leds"; reg_periph := LedPeripheral;
          reg_addr := Some 0xf0001000; reg_as_submodule := None |}, 0xf0001000);
      ({| reg_attr := "gpioa"; reg_periph := GpioPeripheral 8;
          reg_addr := Some 0xf0002000; reg_as_submodule := None |}, 0xf0002000);
      ({| reg_attr := "gpiob"; reg_periph := GpioPeripheral 8;
          reg_addr := Some 0xf0002100; reg_as_submodule := None |}, 0xf0002100);
      ({| reg_attr := "usb0"; reg_periph := USBDeviceController;
          reg_addr := Some 0xf0003000; reg_as_submodule := None |}, 0xf0003000);
      ({| reg_attr := "usb1"; reg_periph := USBDeviceController;
          reg_addr := Some 0xf0004000; reg_as_submodule := None |}, 0xf0004000);
      ({| reg_attr := "usb2"; reg_periph := USBDeviceController;
          reg_addr := Some 0xf0005000; reg_as_submodule := None |}, 0xf0005000) ].
Proof. intros; reflexivity. Qed.

Ltac in_list := simpl; repeat first [left; reflexivity | right].

(** C1: the six peripherals registered with an explicit base address are
    leds, gpioa, gpiob, usb0, usb1 and usb2 at the addresses of the source;
    whatever widths their register windows have within the room the map
    leaves them (0x100 for the GPIO units, 0x1000 for the others), the
    address ranges are pairwise non-overlapping; every base address is
    aligned to 0x1000 or to 0x100. *)
Theorem C1_explicit_ranges_disjoint_and_aligned :
  forall (clock_frequency : Z) (register_width : Registration -> Z),
    let entries :=
      explicit_bases (MoondancerSoc.soc (MoondancerSoc.__init__ clock_frequency)) in
    (forall r b, In (r, b) entries -> 0 < register_width r <= window_limit r) ->
    map (fun e => (reg_attr (fst e), snd e)) entries =
      [ ("leds", 0xf0001000); ("gpioa", 0xf0002000); ("gpiob", 0xf0002100);
        ("usb0", 0xf0003000); ("usb1", 0xf0004000); ("usb2", 0xf0005000) ] /\
    (forall i j ri bi rj bj,
        i <> j ->
        nth_error entries i = Some (ri, bi) ->
        nth_error entries j = Some (rj, bj) ->
        ~ ranges_overlap bi (register_width ri) bj (register_width rj)) /\
    (forall r b, In (r, b) entries -> aligned 0x1000 b \/ aligned 0x100 b).
Proof.
  intros clock_frequency w entries Hw. subst entries.
  rewrite explicit_bases_init in *.
  match type of Hw with
  | forall r b, In _ ?l -> _ => set (entries := l) in *
  end.
  assert (Hpos : forall x, In x entries -> 0 < w (fst x)).
  { intros [r b] Hx. apply (Hw r b Hx). }
  assert (Hc : chained w entries).
  { unfold entries, chained, fst, snd. repeat split;
      match goal with
      | |- ?b + w ?r <= _ =>
          let Hr := fresh in
          assert (Hr : 0 < w r <= window_limit r)
            by (apply (Hw r b); unfold entries; in_list);
          unfold window_limit in Hr; simpl reg_periph in Hr; lia
      end. }
  split; [reflexivity | split].
  - intros i j ri bi rj bj Hne Hi Hj.
    exact (chained_disjoint w entries i j (ri, bi) (rj, bj) Hpos Hc Hne Hi Hj).
  - intros r b Hin. unfold entries in Hin. simpl in Hin.
    repeat (destruct Hin as [Hin|Hin];
            [inversion Hin; subst; (left; reflexivity) || (right; reflexivity)|]).
    contradiction.
Qed.

Lemma C1_explicit_ranges_witness :
  let w := fun r : Registration =>
             match reg_periph r with GpioPeripheral _ => 0x40 | _ => 0x20 end in
  let entries := explicit_bases (MoondancerSoc.soc (MoondancerSoc.__init__ 60000000)) in
  ~ ranges_overlap 0xf0002000 0x40 0xf0002100 0x40 /\
  (forall r b, In (r, b) entries -> aligned 0x1000 b \/ aligned 0x100 b).
Proof.
  intros w entries.
  assert (Hw : forall r b, In (r, b) entries -> 0 < w r <= window_limit r).
  { intros r b Hin. unfold entries in Hin. rewrite explicit_bases_init in Hin.
    simpl in Hin.
    repeat (destruct Hin as [Hin|Hin];
            [inversion Hin; subst; unfold w, window_limit; simpl reg_periph; lia|]).
    contradiction. }
  destruct (C1_explicit_ranges_disjoint_and_aligned 60000000 w Hw) as (_ & Hd & Ha).
  split.
  - refine (Hd 1%nat 2%nat _ _ _ _ _ eq_refl eq_refl). discriminate.
  - exact Ha.
Defined.

(** C5: the nine eptri endpoint peripherals (usbN_ep_control, usbN_ep_in,
    usbN_ep_out for N = 0, 1, 2) are each added with as_submodule=False and
    without a base address; under the allocator of the spec each is reached
    at the base of its USB device controller usbN, not at a range of its
    own. *)
Theorem C5_eptri_endpoints_share_controller_range :
  forall clock_frequency : Z,
    let soc := MoondancerSoc.soc (MoondancerSoc.__init__ clock_frequency) in
    map reg_attr (eptri_registrations soc) =
      [ "usb0_ep_control"; "usb0_ep_in"; "usb0_ep_out";
        "usb1_ep_control"; "usb1_ep_in"; "usb1_ep_out";
        "usb2_ep_control"; "usb2_ep_in"; "usb2_ep_out" ] /\
    Forall (fun r =>
              reg_as_submodule r = Some false /\
              reg_addr r = None /\
              exists parent base,
                In parent (peripherals soc) /\
                reg_attr parent = controller_of (reg_attr r) /\
                reg_periph parent = USBDeviceController /\
                reg_addr parent = Some base /\
                base_of (reg_attr parent) soc = Some base /\
                base_of (reg_attr r) soc = Some base)
           (eptri_registrations soc) /\
    base_of "usb0_ep_control" soc = Some 0xf0003000 /\
    base_of "usb1_ep_control" soc = Some 0xf0004000 /\
    base_of "usb2_ep_control" soc = Some 0xf0005000.
Proof.
  intros clock_frequency soc.
  split; [vm_compute; reflexivity | split; [| repeat split; vm_compute; reflexivity]].
  assert (Hl : eptri_registrations soc =
               eptri_registrations (MoondancerSoc.soc (MoondancerSoc.__init__ 0)))
    by (vm_compute; reflexivity).
  assert (Hp : peripherals soc =
               peripherals (MoondancerSoc.soc (MoondancerSoc.__init__ 0)))
    by (vm_compute; reflexivity).
  assert (Hb : forall a, base_of a soc =
                         base_of a (MoondancerSoc.soc (MoondancerSoc.__init__ 0)))
    by (intros; unfold base_of; rewrite Hp; reflexivity).
  rewrite Hl. vm_compute eptri_registrations.
  assert (Hparent : forall n base,
             In (n, base) [("usb0", 0xf0003000); ("usb1", 0xf0004000); ("usb2", 0xf0005000)] ->
             In {| reg_attr := n; reg_periph := USBDeviceController;
                   reg_addr := Some base; reg_as_submodule := None |} (peripherals soc) /\
             base_of n soc = Some base).
  { intros n base Hin. rewrite Hp, Hb. simpl in Hin.
    repeat (destruct Hin as [Hin|Hin];
            [inversion Hin; subst; split; [vm_compute; tauto | vm_compute; reflexivity]|]).
    contradiction. }
  repeat (apply Forall_cons; [split; [reflexivity | split; [reflexivity |]] |]);
    try apply Forall_nil;
    match goal with
    | |- exists parent base, _ /\ _ = controller_of (reg_attr ?r) /\ _ =>
        let n := eval vm_compute in (controller_of (reg_attr r)) in
        let b := eval vm_compute in (base_of n (MoondancerSoc.soc (MoondancerSoc.__init__ 0))) in
        match b with
        | Some ?base =>
            exists {| reg_attr := n; reg_periph := USBDeviceController;
                      reg_addr := Some base; reg_as_submodule := None |}, base;
            destruct (Hparent n base) as [Hin Hbase]; [in_list |];
            repeat split; try reflexivity; try assumption;
            rewrite Hb; vm_compute; reflexivity
        end
    end.
Qed.

(** ** The monad *)

Section MonadFacts.
Context {W : Type}.

Lemma bind_ok :
  forall (A B : Type) (c : M W A) (k : A -> M W B) s s1 a,
    c s = (s1, inr a) -> bind c k s = k a s1.
Proof. intros A B c k s s1 a Hc. unfold bind. rewrite Hc. reflexivity. Qed.

Lemma bind_err :
  forall (A B : Type) (c : M W A) (k : A -> M W B) s s1 e,
    c s = (s1, inl e) -> bind c k s = (s1, inl e).
Proof. intros A B c k s s1 e Hc. unfold bind. rewrite Hc. reflexivity. Qed.

Lemma bind_inv_ok :
  forall (A B : Type) (c : M W A) (k : A -> M W B) s s' b,
    bind c k s = (s', inr b) ->
    exists s1 a, c s = (s1, inr a) /\ k a s1 = (s', inr b).
Proof.
  intros A B c k s s' b Hb. unfold bind in Hb.
  destruct (c s) as [s1 [e|a]]; [discriminate|]. eauto.
Qed.

Lemma bind_assoc :
  forall (A B C : Type) (c : M W A) (k : A -> M W B) (k' : B -> M W C) s,
    bind (bind c k) k' s = bind c (fun a => bind (k a) k') s.
Proof.
  intros A B C c k k' s. unfold bind.
  destruct (c s) as [s1 [e|a]]; reflexivity.
Qed.

Lemma bind_ret_r :
  forall (A : Type) (c : M W A) s, bind c (fun a => ret a) s = c s.
Proof.
  intros A c s. unfold bind, ret. destruct (c s) as [s1 [e|a]]; reflexivity.
Qed.

Lemma try_except_ok :
  forall (A : Type) (body : M W A) handler s s1 a,
    body s = (s1, inr a) -> try_except body handler s = (s1, inr a).
Proof. intros A body h s s1 a Hb. unfold try_except. rewrite Hb. reflexivity. Qed.

Lemma try_except_err :
  forall (A : Type) (body : M W A) handler s s1 e,
    body s = (s1, inl e) -> try_except body handler s = handler e s1.
Proof. intros A body h s s1 e Hb. unfold try_except. rewrite Hb. reflexivity. Qed.

(** *** Which events a computation emits *)

Lemma emits_ret : forall (A : Type) P (a : A), emits_only P (ret (W:=W) a).
Proof.
  intros A P a s s' r Hr. inversion Hr; subst. exists [].
  rewrite app_nil_r. auto.
Qed.

Lemma emits_raise : forall (A : Type) P e, emits_only P (raise (W:=W) (A:=A) e).
Proof.
  intros A P e s s' r Hr. inversion Hr; subst. exists [].
  rewrite app_nil_r. auto.
Qed.

Lemma emits_emit : forall P ev, P ev = true -> emits_only P (emit (W:=W) ev).
Proof.
  intros P ev Hev s s' r Hr. inversion Hr; subst. exists [ev]. simpl.
  rewrite Hev. auto.
Qed.

Lemma emits_call :
  forall (A : Type) P (op : W -> W * (Exn + A)), emits_only P (call op).
Proof.
  intros A P op s s' r Hr. unfold call in Hr.
  destruct (op (world s)) as [w r']. inversion Hr; subst. exists [].
  simpl. rewrite app_nil_r. auto.
Qed.

Lemma emits_ask : forall (A : Type) P (q : W -> A), emits_only P (ask q).
Proof.
  intros A P q s s' r Hr. inversion Hr; subst. exists [].
  rewrite app_nil_r. auto.
Qed.

Lemma emits_bind :
  forall (A B : Type) P (c : M W A) (k : A -> M W B),
    emits_only P c -> (forall a, emits_only P (k a)) -> emits_only P (bind c k).
Proof.
  intros A B P c k Hc Hk s s' r Hr. unfold bind in Hr.
  destruct (c s) as [s1 [e|a]] eqn:Ec.
  - inversion Hr; subst. exact (Hc _ _ _ Ec).
  - destruct (Hc _ _ _ Ec) as (evs1 & Ht1 & Hp1).
    destruct (Hk a _ _ _ Hr) as (evs2 & Ht2 & Hp2).
    exists (evs1 ++ evs2)%list. rewrite Ht2, Ht1, app_assoc, forallb_app, Hp1, Hp2.
    auto.
Qed.

Lemma emits_try_except :
  forall (A : Type) P (body : M W A) (handler : Exn -> M W A),
    emits_only P body -> (forall e, emits_only P (handler e)) ->
    emits_only P (try_except body handler).
Proof.
  intros A P body handler Hb Hh s s' r Hr. unfold try_except in Hr.
  destruct (body s) as [s1 [e|a]] eqn:Eb.
  - destruct (Hb _ _ _ Eb) as (evs1 & Ht1 & Hp1).
    destruct (Hh e _ _ _ Hr) as (evs2 & Ht2 & Hp2).
    exists (evs1 ++ evs2)%list. rewrite Ht2, Ht1, app_assoc, forallb_app, Hp1, Hp2.
    auto.
  - inversion Hr; subst. exact (Hb _ _ _ Eb).
Qed.

Lemma emits_weaken :
  forall (A : Type) (P Q : Event -> bool) (c : M W A),
    (forall ev, P ev = true -> Q ev = true) -> emits_only P c -> emits_only Q c.
Proof.
  intros A P Q c HPQ Hc s s' r Hr.
  destruct (Hc _ _ _ Hr) as (evs & Ht & Hp). exists evs. split; [exact Ht|].
  rewrite forallb_forall in *. auto.
Qed.

End MonadFacts.

Create HintDb emits.
#[local] Hint Resolve emits_ret emits_raise emits_call emits_ask : emits.
#[local] Hint Extern 1 (emits_only _ (emit _)) => apply emits_emit; reflexivity : emits.
#[local] Hint Extern 2 (emits_only _ (bind _ _)) => apply emits_bind; [| intros] : emits.
#[local] Hint Extern 2 (emits_only _ (try_except _ _)) =>
  apply emits_try_except; [| intros] : emits.

(** ** Requests *)

Section ElaborateFacts.
Context {W : Type} `{Env W}.

Lemma platform_request_run :
  forall name number (s : State W),
    platform_request name number s =
    match env_request name number (world s) with
    | (w, inl e) =>
        ({| world := w; trace := trace s ++ [EvRequest name number] |}, inl e)
    | (w, inr r) =>
        ({| world := w; trace := trace s ++ [EvRequest name number] |},
         inr {| logical_name := name; logical_number := number;
                physical_pin_set := fst r; electrical_attributes := snd r |})
    end.
Proof.
  intros name number s. unfold platform_request, bind, emit, call, ret. simpl.
  destruct (env_request name number (world s)) as [w [e|r]]; reflexivity.
Qed.

Lemma platform_request_trace :
  forall name number (s s' : State W) r,
    platform_request name number s = (s', r) ->
    trace s' = (trace s ++ [EvRequest name number])%list.
Proof.
  intros name number s s' r Hr. rewrite platform_request_run in Hr.
  destruct (env_request name number (world s)) as [w [e|x]];
    inversion Hr; reflexivity.
Qed.

Lemma platform_request_name :
  forall name number (s s' : State W) io,
    platform_request name number s = (s', inr io) ->
    logical_name io = name /\ logical_number io = number.
Proof.
  intros name number s s' io Hr. rewrite platform_request_run in Hr.
  destruct (env_request name number (world s)) as [w [e|x]];
    inversion Hr; subst; auto.
Qed.

Lemma emits_platform_request :
  forall name number, emits_only elaboration_event (platform_request name number).
Proof. intros. unfold platform_request. auto with emits. Qed.

End ElaborateFacts.

Ltac bind_cases :=
  unfold bind;
  repeat match goal with
         | |- context [match ?c ?s with _ => _ end] =>
             destruct (c s) as [? [?|?]]; try reflexivity
         end.

Section BlockFacts.
Context {W : Type} `{Env W}.

Lemma elaborate_stages :
  forall self (s : State W),
    MoondancerSoc.elaborate self s =
    (m <- before_usb1 self ;;
     m <- MoondancerSoc.bind_usb1 m ;;
     m <- MoondancerSoc.bind_usb2 m ;;
     ret m) s.
Proof.
  intros self s. unfold MoondancerSoc.elaborate, before_usb1, before_usb0.
  bind_cases.
Qed.

Lemma elaborate_stages2 :
  forall self (s : State W),
    MoondancerSoc.elaborate self s =
    (m <- before_usb2 self ;; m <- MoondancerSoc.bind_usb2 m ;; ret m) s.
Proof.
  intros self s. rewrite elaborate_stages. unfold before_usb2.
  bind_cases.
Qed.

Lemma elaborate_stages0 :
  forall self (s : State W),
    MoondancerSoc.elaborate self s =
    (m <- before_usb0 self ;;
     m <- MoondancerSoc.bind_usb0 m ;;
     m <- MoondancerSoc.bind_usb1 m ;;
     m <- MoondancerSoc.bind_usb2 m ;;
     ret m) s.
Proof.
  intros self s. unfold MoondancerSoc.elaborate, before_usb0.
  bind_cases.
Qed.

Lemma elaborate_after_cpu_reset :
  forall self (s : State W),
    MoondancerSoc.elaborate self s =
    (m <- MoondancerSoc.elaborate_clocking self ;;
     m <- MoondancerSoc.wire_cpu_reset m ;;
     after_cpu_reset m) s.
Proof. intros self s. reflexivity. Qed.

Lemma bind_usb1_falls_back :
  falls_back MoondancerSoc.bind_usb1 "usb1" "aux_phy" "host_phy".
Proof.
  intros m s. unfold MoondancerSoc.bind_usb1. repeat split.
  - intros s1 io H1.
    unfold bind, try_except. rewrite H1. reflexivity.
  - intros s1 e s2 io H1 H2.
    unfold bind, try_except. rewrite H1, H2. reflexivity.
  - intros s1 e s2 e' H1 H2.
    unfold bind, try_except. rewrite H1, H2. reflexivity.
Qed.

Lemma bind_usb2_falls_back :
  falls_back MoondancerSoc.bind_usb2 "usb2" "control_phy" "sideband_phy".
Proof.
  intros m s. unfold MoondancerSoc.bind_usb2. repeat split.
  - intros s1 io H1.
    unfold bind, try_except. rewrite H1. reflexivity.
  - intros s1 e s2 io H1 H2.
    unfold bind, try_except. rewrite H1, H2. reflexivity.
  - intros s1 e s2 e' H1 H2.
    unfold bind, try_except. rewrite H1, H2. reflexivity.
Qed.

Lemma wire_cpu_reset_absent :
  forall m (s s1 : State W) e,
    platform_request "button_user" 0 s = (s1, inl e) ->
    MoondancerSoc.wire_cpu_reset m s = (log_event button_warning s1, inr m).
Proof.
  intros m s s1 e H1. unfold MoondancerSoc.wire_cpu_reset, try_except, bind.
  rewrite H1. reflexivity.
Qed.

Lemma wire_cpu_reset_present :
  forall m (s s1 : State W) io,
    platform_request "button_user" 0 s = (s1, inr io) ->
    MoondancerSoc.wire_cpu_reset m s =
    (s1, inr (add_comb [Assign (Attr "soc.cpu.ext_reset") (IoAttr io "i")] m)).
Proof.
  intros m s s1 io H1. unfold MoondancerSoc.wire_cpu_reset, try_except, bind.
  rewrite H1. reflexivity.
Qed.

Lemma elaborate_clocking_ok :
  forall self (s s' : State W) m,
    MoondancerSoc.elaborate_clocking self s = (s', inr m) ->
    m = add_submodule "soc" (DomainRenamer [("sync", "usb")] (MoondancerSoc.soc self))
          (add_submodule "car" ClockDomainGenerator Module_new).
Proof.
  intros self s s' m Hm. unfold MoondancerSoc.elaborate_clocking in Hm.
  apply bind_inv_ok in Hm. destruct Hm as (s1 & [] & _ & Hm).
  apply bind_inv_ok in Hm. destruct Hm as (s2 & car & Hcar & Hm).
  unfold platform_clock_domain_generator in Hcar.
  apply bind_inv_ok in Hcar. destruct Hcar as (s3 & [] & _ & Hcar).
  apply bind_inv_ok in Hcar. destruct Hcar as (s4 & [] & _ & Hcar).
  inversion Hcar; subst. inversion Hm; subst. reflexivity.
Qed.

Lemma connect_io_ok :
  forall m (s s' : State W) m',
    MoondancerSoc.connect_io m s = (s', inr m') ->
    submodules m' = (submodules m ++ [("apollo_adv", ApolloAdvertiser)])%list /\
    drives "soc.cpu.ext_reset" m' = drives "soc.cpu.ext_reset" m.
Proof.
  intros m s s' m' Hm. unfold MoondancerSoc.connect_io in Hm.
  apply bind_inv_ok in Hm. destruct Hm as (s1 & pmoda_io & _ & Hm).
  apply bind_inv_ok in Hm. destruct Hm as (s2 & uart1_io & _ & Hm).
  apply bind_inv_ok in Hm. destruct Hm as (s3 & jtag0_io & _ & Hm).
  apply bind_inv_ok in Hm. destruct Hm as (s4 & [] & _ & Hm).
  inversion Hm; subst; clear Hm. split.
  - destruct (has_oe uart1_io "tx"); reflexivity.
  - unfold drives. destruct (has_oe uart1_io "tx"); simpl comb;
      rewrite !existsb_app; simpl; rewrite !orb_false_r; reflexivity.
Qed.

Lemma bind_usb0_ok :
  forall m (s s' : State W) m',
    MoondancerSoc.bind_usb0 m s = (s', inr m') ->
    exists io, platform_request "target_phy" 0 s = (s', inr io) /\
               m' = with_usb "usb0" io m.
Proof.
  intros m s s' m' Hm. unfold MoondancerSoc.bind_usb0 in Hm.
  apply bind_inv_ok in Hm. destruct Hm as (s1 & io & Hio & Hm).
  inversion Hm; subst. eauto.
Qed.

Lemma bind_usb1_ok :
  forall m (s s' : State W) m',
    MoondancerSoc.bind_usb1 m s = (s', inr m') ->
    exists io, m' = with_usb "usb1" io m.
Proof.
  intros m s s' m' Hm. unfold MoondancerSoc.bind_usb1 in Hm.
  apply bind_inv_ok in Hm. destruct Hm as (s1 & io & _ & Hm).
  inversion Hm; subst. exists io. reflexivity.
Qed.

Lemma bind_usb2_ok :
  forall m (s s' : State W) m',
    MoondancerSoc.bind_usb2 m s = (s', inr m') ->
    exists io, m' = with_usb "usb2" io m.
Proof.
  intros m s s' m' Hm. unfold MoondancerSoc.bind_usb2 in Hm.
  apply bind_inv_ok in Hm. destruct Hm as (s1 & io & _ & Hm).
  inversion Hm; subst. exists io. reflexivity.
Qed.

Lemma before_usb0_ok :
  forall self (s s' : State W) m,
    before_usb0 self s = (s', inr m) ->
    map fst (submodules m) = ["car"; "soc"; "apollo_adv"].
Proof.
  intros self s s' m Hm. unfold before_usb0 in Hm.
  apply bind_inv_ok in Hm. destruct Hm as (s1 & m1 & H1 & Hm).
  apply bind_inv_ok in Hm. destruct Hm as (s2 & m2 & H2 & Hm).
  apply elaborate_clocking_ok in H1. subst m1.
  apply connect_io_ok in Hm. destruct Hm as [Hs _]. rewrite Hs.
  unfold MoondancerSoc.wire_cpu_reset, try_except in H2.
  match type of H2 with
  | context [bind ?c ?k s1] => destruct (bind c k s1) as [s3 [e|m3]] eqn:E
  end.
  - apply bind_inv_ok in H2. destruct H2 as (s4 & [] & _ & H2).
    inversion H2; subst. reflexivity.
  - inversion H2; subst. apply bind_inv_ok in E.
    destruct E as (s4 & io & _ & E). inversion E; subst. reflexivity.
Qed.

Lemma before_usb1_ok :
  forall self (s s' : State W) m,
    before_usb1 self s = (s', inr m) ->
    map fst (submodules m) = ["car"; "soc"; "apollo_adv"; "usb0_device"].
Proof.
  intros self s s' m Hm. unfold before_usb1 in Hm.
  apply bind_inv_ok in Hm. destruct Hm as (s1 & m1 & H1 & Hm).
  apply before_usb0_ok in H1. apply bind_usb0_ok in Hm.
  destruct Hm as (io & _ & ->). simpl. rewrite map_app, H1. reflexivity.
Qed.

Lemma emits_set_usb_device_hooks :
  emits_only elaboration_event (platform_set_usb_device_hooks (W:=W)).
Proof.
  unfold platform_set_usb_device_hooks. apply emits_bind.
  - apply emits_emit. reflexivity.
  - intros _ s s' r Hr. inversion Hr; subst. exists []. simpl.
    rewrite app_nil_r. auto.
Qed.

Lemma emits_elaborate :
  forall self, emits_only elaboration_event (MoondancerSoc.elaborate (W:=W) self).
Proof.
  intros self.
  pose proof emits_platform_request as Hreq.
  pose proof emits_set_usb_device_hooks as Hhooks.
  unfold MoondancerSoc.elaborate, MoondancerSoc.elaborate_clocking,
    MoondancerSoc.wire_cpu_reset, MoondancerSoc.connect_io,
    MoondancerSoc.bind_usb0, MoondancerSoc.bind_usb1, MoondancerSoc.bind_usb2,
    platform_add_resources, platform_clock_domain_generator, logging_warn.
  cbv zeta.
  auto 30 with emits.
Qed.

End BlockFacts.

(** ** What the USB blocks leave in the module *)

Lemma assoc_app :
  forall (A : Type) k (l1 l2 : list (string * A)),
    assoc k (l1 ++ l2) =
    match assoc k l1 with
    | Some v => Some v
    | None => assoc k l2
    end.
Proof.
  intros A k l1 l2. induction l1 as [|[k' v] l1 IH]; simpl; [reflexivity|].
  destruct (String.eqb k k'); [reflexivity | exact IH].
Qed.

Lemma assoc_not_in :
  forall (A : Type) k (l : list (string * A)),
    ~ In k (map fst l) -> assoc k l = None.
Proof.
  intros A k l. induction l as [|[k' v] l IH]; simpl; intros Hn; [reflexivity|].
  destruct (String.eqb_spec k k') as [->|Hne]; [tauto|]. apply IH. tauto.
Qed.

Lemma usb_bus_with_usb_new :
  forall ctrl io m,
    ~ In (ctrl ++ "_device") (map fst (submodules m)) ->
    usb_bus (ctrl ++ "_device") (with_usb ctrl io m) = Some io.
Proof.
  intros ctrl io m Hn. unfold usb_bus, with_usb. simpl submodules.
  rewrite assoc_app, (assoc_not_in _ _ _ Hn). simpl.
  rewrite String.eqb_refl. reflexivity.
Qed.

Lemma usb_bus_with_usb_kept :
  forall name ctrl io m b,
    usb_bus name m = Some b -> usb_bus name (with_usb ctrl io m) = Some b.
Proof.
  intros name ctrl io m b Hb. unfold usb_bus, with_usb in *. simpl submodules.
  rewrite assoc_app. destruct (assoc name (submodules m)); [exact Hb | discriminate].
Qed.

Lemma comb_with_usb :
  forall ctrl io m,
    comb (with_usb ctrl io m) = (comb m ++ [Attach ctrl (usb_device ctrl io)])%list.
Proof. reflexivity. Qed.

Lemma drives_with_usb :
  forall path ctrl io m, drives path (with_usb ctrl io m) = drives path m.
Proof.
  intros path ctrl io m. unfold drives. rewrite comb_with_usb, existsb_app.
  simpl. rewrite !orb_false_r. reflexivity.
Qed.

(** ** Resource binding with a fallback *)

(** C2: for every platform, the two USB blocks with a fallback list
    ("aux_phy" then "host_phy" for usb1, "control_phy" then "sideband_phy"
    for usb2) bind the first resource, in that order, whose request answers;
    when the preferred one and the alternate both fail, the failure of the
    alternate leaves the block and leaves [elaborate], unhandled. *)
Theorem C2_phy_fallback_first_available :
  forall (W : Type) (E : Env W),
    falls_back MoondancerSoc.bind_usb1 "usb1" "aux_phy" "host_phy" /\
    falls_back MoondancerSoc.bind_usb2 "usb2" "control_phy" "sideband_phy" /\
    (forall self (s s1 s2 s3 : State W) m1 e e',
        before_usb1 self s = (s1, inr m1) ->
        platform_request "aux_phy" 0 s1 = (s2, inl e) ->
        platform_request "host_phy" 0 s2 = (s3, inl e') ->
        MoondancerSoc.elaborate self s = (s3, inl e')) /\
    (forall self (s s1 s2 s3 : State W) m2 e e',
        before_usb2 self s = (s1, inr m2) ->
        platform_request "control_phy" 0 s1 = (s2, inl e) ->
        platform_request "sideband_phy" 0 s2 = (s3, inl e') ->
        MoondancerSoc.elaborate self s = (s3, inl e')).
Proof.
  intros W E. split; [exact bind_usb1_falls_back|].
  split; [exact bind_usb2_falls_back|]. split.
  - intros self s s1 s2 s3 m1 e e' Hpre H1 H2.
    rewrite elaborate_stages. unfold bind at 1. rewrite Hpre.
    destruct (bind_usb1_falls_back m1 s1) as (_ & _ & Hfail).
    unfold bind at 1. rewrite (Hfail s2 e s3 e' H1 H2). reflexivity.
  - intros self s s1 s2 s3 m2 e e' Hpre H1 H2.
    rewrite elaborate_stages2. unfold bind at 1. rewrite Hpre.
    destruct (bind_usb2_falls_back m2 s1) as (_ & _ & Hfail).
    unfold bind at 1. rewrite (Hfail s2 e s3 e' H1 H2). reflexivity.
Qed.

Lemma C2_phy_fallback_witness :
  (exists s' io,
      MoondancerSoc.bind_usb1 Module_new (start sim_full) =
        (s', inr (with_usb "usb1" io Module_new)) /\
      logical_name io = "aux_phy") /\
  (exists s' io,
      MoondancerSoc.bind_usb1 Module_new (start sim_legacy) =
        (s', inr (with_usb "usb1" io Module_new)) /\
      logical_name io = "host_phy") /\
  (exists s' e, MoondancerSoc.elaborate design60 (start sim_no_aux) = (s', inl e)).
Proof.
  destruct (C2_phy_fallback_first_available SimWorld sim_env)
    as (H1 & _ & Hfail & _).
  split; [|split].
  - destruct (H1 Module_new (start sim_full)) as (Hpref & _ & _).
    eexists. eexists. split.
    + apply Hpref. vm_compute. reflexivity.
    + reflexivity.
  - destruct (H1 Module_new (start sim_legacy)) as (_ & Halt & _).
    eexists. eexists. split.
    + eapply Halt; vm_compute; reflexivity.
    + reflexivity.
  - eexists. eexists.
    eapply (Hfail design60 (start sim_no_aux)); vm_compute; reflexivity.
Defined.

(** C4: on a platform where the request for "aux_phy" fails and "host_phy"
    answers, elaboration binds usb1 to "host_phy": the USB device of usb1 is
    built on the binding returned for "host_phy", whose logical name is
    "host_phy", and every module [elaborate] returns carries it. *)
Theorem C4_aux_phy_absent_binds_host_phy :
  forall (W : Type) (E : Env W) self (s s1 s2 s3 : State W) m1 e io,
    before_usb1 self s = (s1, inr m1) ->
    platform_request "aux_phy" 0 s1 = (s2, inl e) ->
    platform_request "host_phy" 0 s2 = (s3, inr io) ->
    logical_name io = "host_phy" /\
    MoondancerSoc.bind_usb1 m1 s1 = (s3, inr (with_usb "usb1" io m1)) /\
    usb_bus "usb1_device" (with_usb "usb1" io m1) = Some io /\
    MoondancerSoc.elaborate self s =
      (m <- MoondancerSoc.bind_usb2 (with_usb "usb1" io m1) ;; ret m) s3 /\
    (forall sf mf,
        MoondancerSoc.elaborate self s = (sf, inr mf) ->
        usb_bus "usb1_device" mf = Some io /\
        In (Attach "usb1" (usb_device "usb1" io)) (comb mf)).
Proof.
  intros W E self s s1 s2 s3 m1 e io Hpre Haux Hhost.
  destruct (bind_usb1_falls_back m1 s1) as (_ & Halt & _).
  pose proof (Halt s2 e s3 io Haux Hhost) as Hb1.
  assert (Hbus : usb_bus "usb1_device" (with_usb "usb1" io m1) = Some io).
  { apply (usb_bus_with_usb_new "usb1"). rewrite (before_usb1_ok _ _ _ _ Hpre).
    simpl. intros [Hx|[Hx|[Hx|[Hx|[]]]]]; discriminate. }
  assert (Hel : MoondancerSoc.elaborate self s =
                (m <- MoondancerSoc.bind_usb2 (with_usb "usb1" io m1) ;; ret m) s3).
  { rewrite elaborate_stages. unfold bind at 1. rewrite Hpre.
    unfold bind at 1. rewrite Hb1. reflexivity. }
  split; [exact (proj1 (platform_request_name _ _ _ _ _ Hhost))|].
  split; [exact Hb1|]. split; [exact Hbus|]. split; [exact Hel|].
  intros sf mf Hmf. rewrite Hel in Hmf.
  apply bind_inv_ok in Hmf. destruct Hmf as (s4 & m2 & H2 & Hret).
  inversion Hret; subst. apply bind_usb2_ok in H2. destruct H2 as (io2 & ->).
  split.
  - apply usb_bus_with_usb_kept. exact Hbus.
  - rewrite !comb_with_usb. apply in_or_app. left. apply in_or_app. right.
    simpl. auto.
Qed.

Lemma C4_aux_phy_absent_witness :
  exists sf mf io,
    MoondancerSoc.elaborate design60 (start sim_legacy) = (sf, inr mf) /\
    usb_bus "usb1_device" mf = Some io /\
    logical_name io = "host_phy".
Proof.
  edestruct (C4_aux_phy_absent_binds_host_phy SimWorld sim_env design60
               (start sim_legacy)) as (Hname & _ & _ & _ & Hall).
  - vm_compute. reflexivity.
  - vm_compute. reflexivity.
  - vm_compute. reflexivity.
  - eexists. eexists. eexists.
    split; [vm_compute; reflexivity|]. split; [|exact Hname].
    eapply proj1, Hall. vm_compute. reflexivity.
Defined.

(** C9: the two PHY handlers are bare [except] clauses.  Whatever exception
    the request for "aux_phy" (for "control_phy") raises, of whatever class,
    the block goes on to request "host_phy" ("sideband_phy"): what it
    returns is what that second request gives, the exception is neither
    logged nor passed on, and the trace only shows the two requests. *)
Theorem C9_bare_except_masks_any_exception :
  forall (W : Type) (E : Env W) (e : Exn) m (s s1 : State W),
    (platform_request "aux_phy" 0 s = (s1, inl e) ->
     MoondancerSoc.bind_usb1 m s =
       (ulpi1 <- platform_request "host_phy" 0 ;;
        ret (with_usb "usb1" ulpi1 m)) s1 /\
     trace (fst (MoondancerSoc.bind_usb1 m s)) =
       (trace s ++ [EvRequest "aux_phy" 0; EvRequest "host_phy" 0])%list) /\
    (platform_request "control_phy" 0 s = (s1, inl e) ->
     MoondancerSoc.bind_usb2 m s =
       (ulpi2 <- platform_request "sideband_phy" 0 ;;
        ret (with_usb "usb2" ulpi2 m)) s1 /\
     trace (fst (MoondancerSoc.bind_usb2 m s)) =
       (trace s ++ [EvRequest "control_phy" 0; EvRequest "sideband_phy" 0])%list).
Proof.
  intros W E e m s s1. split; intros H1.
  - assert (Hrun : MoondancerSoc.bind_usb1 m s =
                   (ulpi1 <- platform_request "host_phy" 0 ;;
                    ret (with_usb "usb1" ulpi1 m)) s1).
    { unfold MoondancerSoc.bind_usb1, bind, try_except. rewrite H1. reflexivity. }
    split; [exact Hrun|]. rewrite Hrun. unfold bind.
    destruct (platform_request "host_phy" 0 s1) as [s2 [e2|io]] eqn:H2;
      simpl; rewrite (platform_request_trace _ _ _ _ _ H2),
               (platform_request_trace _ _ _ _ _ H1), <- app_assoc; reflexivity.
  - assert (Hrun : MoondancerSoc.bind_usb2 m s =
                   (ulpi2 <- platform_request "sideband_phy" 0 ;;
                    ret (with_usb "usb2" ulpi2 m)) s1).
    { unfold MoondancerSoc.bind_usb2, bind, try_except. rewrite H1. reflexivity. }
    split; [exact Hrun|]. rewrite Hrun. unfold bind.
    destruct (platform_request "sideband_phy" 0 s1) as [s2 [e2|io]] eqn:H2;
      simpl; rewrite (platform_request_trace _ _ _ _ _ H2),
               (platform_request_trace _ _ _ _ _ H1), <- app_assoc; reflexivity.
Qed.

(** The board has "aux_phy", its request raises a TypeError, and usb1 ends
    up on "host_phy"; a [SystemExit] is taken the same way. *)
Lemma C9_bare_except_witness :
  let faulty faults :=
    start (sim_with_faults faults
             (sim_world (Some sim_platform_info)
                [("aux_phy", 0%nat); ("host_phy", 0%nat)] [])) in
  (exists s' io,
      MoondancerSoc.bind_usb1 Module_new
        (faulty [("aux_phy", Exception "TypeError" "unrelated")]) =
        (s', inr (with_usb "usb1" io Module_new)) /\
      logical_name io = "host_phy") /\
  trace (fst (MoondancerSoc.bind_usb1 Module_new
                (faulty [("aux_phy", SystemExit 3)]))) =
    [EvRequest "aux_phy" 0; EvRequest "host_phy" 0].
Proof.
  intros faulty. split.
  - destruct (C9_bare_except_masks_any_exception SimWorld sim_env
                (Exception "TypeError" "unrelated") Module_new
                (faulty [("aux_phy", Exception "TypeError" "unrelated")])
                {| world := world (faulty [("aux_phy", Exception "TypeError" "unrelated")]);
                   trace := [EvRequest "aux_phy" 0] |}) as [H1 _].
    destruct (H1 eq_refl) as [Hrun _].
    eexists. eexists. split; [rewrite Hrun; vm_compute; reflexivity | reflexivity].
  - destruct (C9_bare_except_masks_any_exception SimWorld sim_env
                (SystemExit 3) Module_new
                (faulty [("aux_phy", SystemExit 3)])
                {| world := world (faulty [("aux_phy", SystemExit 3)]);
                   trace := [EvRequest "aux_phy" 0] |}) as [H1 _].
    exact (proj2 (H1 eq_refl)).
Defined.

(** ** The script *)

#[local] Hint Extern 1 (emits_only _ (let _ := _ in _)) => cbv zeta : emits.
#[local] Hint Extern 3 (emits_only _ (match ?x with _ => _ end)) => destruct x : emits.

Section MainFacts.
Context {W : Type} `{Env W}.

Lemma emits_try_finally :
  forall (A : Type) P (body : M W A) (cleanup : M W unit),
    emits_only P body -> emits_only P cleanup ->
    emits_only P (try_finally body cleanup).
Proof.
  intros A P body cleanup Hb Hc s s' r Hr. unfold try_finally in Hr.
  destruct (body s) as [s1 [e|a]] eqn:Eb;
    destruct (cleanup s1) as [s2 [e'|[]]] eqn:Ec;
    inversion Hr; subst;
    destruct (Hb _ _ _ Eb) as (evs1 & Ht1 & Hp1);
    destruct (Hc _ _ _ Ec) as (evs2 & Ht2 & Hp2);
    exists (evs1 ++ evs2)%list;
    rewrite Ht2, Ht1, app_assoc, forallb_app, Hp1, Hp2; auto.
Qed.

Lemma main_phases :
  forall (s s1 s2 : State W) platform design,
    select_platform s = (s1, inr platform) ->
    create_design platform s1 = (s2, inr design) ->
    main s =
    (build_bios design ;;
     build_soc design ;;
     generate_artifacts platform design ;;
     print completion_message) s2.
Proof.
  intros s s1 s2 platform design H1 H2. unfold main.
  unfold bind at 1. rewrite H1. unfold bind at 1. rewrite H2. reflexivity.
Qed.

Lemma main_no_platform :
  forall (s : State W) w1,
    env_get_appropriate_platform (world s) = (w1, inr None) ->
    main s =
    ({| world := w1;
        trace := trace s ++
                 [ EvConfigureDefaultLogging; EvSetLevel DEBUG;
                   EvGetAppropriatePlatform;
                   EvLog ERROR "Failed to identify a supported platform" ] |},
     inl (SystemExit 1)).
Proof.
  intros s w1 Hp. unfold main, select_platform, configure_default_logging,
    logging_setLevel, get_appropriate_platform, logging_error, sys_exit,
    bind, emit, call, raise. simpl. rewrite Hp. simpl.
  rewrite <- !app_assoc. reflexivity.
Qed.

Lemma main_completes :
  forall (s s1 s2 s3 s4 s5 : State W) platform design,
    select_platform s = (s1, inr platform) ->
    create_design platform s1 = (s2, inr design) ->
    build_bios design s2 = (s3, inr tt) ->
    build_soc design s3 = (s4, inr tt) ->
    generate_artifacts platform design s4 = (s5, inr tt) ->
    main s = (log_event (EvPrint completion_message) s5, inr tt).
Proof.
  intros s s1 s2 s3 s4 s5 platform design H1 H2 H3 H4 H5.
  rewrite (main_phases _ _ _ _ _ H1 H2).
  unfold bind at 1. rewrite H3. unfold bind at 1. rewrite H4.
  unfold bind at 1. rewrite H5. reflexivity.
Qed.

Lemma main_inv_ok :
  forall (s sf : State W),
    main s = (sf, inr tt) ->
    exists s1 s2 s3 s4 s5 platform design,
      select_platform s = (s1, inr platform) /\
      create_design platform s1 = (s2, inr design) /\
      build_bios design s2 = (s3, inr tt) /\
      build_soc design s3 = (s4, inr tt) /\
      generate_artifacts platform design s4 = (s5, inr tt) /\
      sf = log_event (EvPrint completion_message) s5.
Proof.
  intros s sf Hm. unfold main in Hm.
  apply bind_inv_ok in Hm. destruct Hm as (s1 & platform & H1 & Hm).
  apply bind_inv_ok in Hm. destruct Hm as (s2 & design & H2 & Hm).
  apply bind_inv_ok in Hm. destruct Hm as (s3 & [] & H3 & Hm).
  apply bind_inv_ok in Hm. destruct Hm as (s4 & [] & H4 & Hm).
  apply bind_inv_ok in Hm. destruct Hm as (s5 & [] & H5 & Hm).
  inversion Hm; subst.
  exists s1, s2, s3, s4, s5, platform, design. repeat split; assumption.
Qed.

(** The phases before the final [print] print nothing. *)
Lemma emits_elaborate_no_print :
  forall self,
    emits_only (fun ev => negb (is_print ev)) (MoondancerSoc.elaborate (W:=W) self).
Proof.
  intros self. apply (emits_weaken _ elaboration_event); [|apply emits_elaborate].
  intros [] Hev; try discriminate; reflexivity.
Qed.

Lemma emits_phases_no_print :
  emits_only (fun ev => negb (is_print ev))
    (platform <- select_platform (W:=W) ;;
     design <- create_design platform ;;
     build_bios design ;;
     build_soc design ;;
     generate_artifacts platform design).
Proof.
  pose proof emits_elaborate_no_print as Hel.
  unfold select_platform, create_design, build_bios, build_soc,
    generate_artifacts, platform_build, ensure_dir, with_open, generate,
    configure_default_logging, logging_setLevel, get_appropriate_platform,
    logging_error, logging_info, sys_exit, os_path_exists, os_makedirs,
    soc_build, log_resources.
  cbv zeta.
  repeat first
    [ apply Hel
    | apply emits_bind; [| intros]
    | apply emits_try_finally
    | apply emits_emit; reflexivity
    | apply emits_call | apply emits_ask | apply emits_ret | apply emits_raise
    | match goal with
      | |- emits_only _ (match ?x with _ => _ end) => destruct x
      end ].
Qed.

End MainFacts.

(** ** Exit behaviour *)

(** C8, as amended: with no supported platform ([get_appropriate_platform]
    returns None) the script logs an error and exits with status 1; with a
    platform, it prints the completion message, as its last action, and ends
    normally when every later phase returns; and a run that ends in an
    exception has not printed it. *)
Theorem C8_exit_behaviour :
  forall (W : Type) (E : Env W) (s : State W),
    (forall w1,
        env_get_appropriate_platform (world s) = (w1, inr None) ->
        main s =
          ({| world := w1;
              trace := trace s ++
                       [ EvConfigureDefaultLogging; EvSetLevel DEBUG;
                         EvGetAppropriatePlatform;
                         EvLog ERROR "Failed to identify a supported platform" ] |},
           inl (SystemExit 1)) /\
        exit_status (snd (main s)) = 1 /\ exit_status (snd (main s)) <> 0) /\
    (forall s1 s2 s3 s4 s5 platform design,
        select_platform s = (s1, inr platform) ->
        create_design platform s1 = (s2, inr design) ->
        build_bios design s2 = (s3, inr tt) ->
        build_soc design s3 = (s4, inr tt) ->
        generate_artifacts platform design s4 = (s5, inr tt) ->
        main s = (log_event (EvPrint completion_message) s5, inr tt) /\
        exit_status (snd (main s)) = 0) /\
    (forall sf e,
        main s = (sf, inl e) ->
        exists evs, trace sf = (trace s ++ evs)%list /\
                    ~ In (EvPrint completion_message) evs).
Proof.
  intros W E s. split; [|split].
  - intros w1 Hp. rewrite (main_no_platform s w1 Hp). simpl.
    repeat split. discriminate.
  - intros s1 s2 s3 s4 s5 platform design H1 H2 H3 H4 H5.
    rewrite (main_completes _ _ _ _ _ _ _ _ H1 H2 H3 H4 H5). split; reflexivity.
  - intros sf e Hm.
    assert (Hm' : (platform <- select_platform ;;
                   design <- create_design platform ;;
                   build_bios design ;;
                   build_soc design ;;
                   generate_artifacts platform design) s = (sf, inl e)).
    { revert Hm. unfold main, print, emit.
      unfold bind.
      repeat match goal with
             | |- context [match ?c ?s with _ => _ end] =>
                 destruct (c s) as [? [?|?]]; try (intros Hm; exact Hm)
             end.
      discriminate. }
    destruct (emits_phases_no_print _ _ _ Hm') as (evs & Ht & Hp).
    exists evs. split; [exact Ht|]. intros Hin.
    rewrite forallb_forall in Hp. specialize (Hp _ Hin). discriminate.
Qed.

Lemma C8_exit_behaviour_witness :
  exit_status (snd (main (start sim_none))) = 1 /\
  (exists s5, main (start sim_full) = (log_event (EvPrint completion_message) s5, inr tt)).
Proof.
  split.
  - destruct (C8_exit_behaviour SimWorld sim_env (start sim_none)) as [H1 _].
    destruct (H1 sim_none eq_refl) as (_ & Hx & _). exact Hx.
  - destruct (C8_exit_behaviour SimWorld sim_env (start sim_full)) as (_ & H2 & _).
    edestruct H2 as [Hm _].
    + vm_compute. reflexivity.
    + vm_compute. reflexivity.
    + vm_compute. reflexivity.
    + vm_compute. reflexivity.
    + vm_compute. reflexivity.
    + eexists. exact Hm.
Defined.

(** A platform is detected, the board has no "target_phy": the run ends in
    the ResourceError of that request and the message is never printed. *)
Lemma C8_platform_detected_build_aborts :
  env_get_appropriate_platform (world (start sim_no_target)) =
    (sim_no_target, inr (Some sim_platform_info)) /\
  snd (main (start sim_no_target)) =
    inl (Exception "ResourceError" "Resource target_phy does not exist") /\
  ~ runs_to_completion (start sim_no_target).
Proof.
  split; [reflexivity|]. split; [vm_compute; reflexivity|].
  intros (sf & Hm & _).
  assert (Hr : snd (main (start sim_no_target)) = inr tt) by (rewrite Hm; reflexivity).
  vm_compute in Hr. discriminate.
Qed.

(** ** The directory made before the bios build *)

(** C10: [build_bios], the phase of the script that invokes the bios build,
    first checks "build/lambdasoc.soc.cpu/bios/3rdparty/litex"; when the
    directory is absent it logs and calls [os.makedirs] on it, whatever the
    design and the platform, and the bios build runs only after that call
    has returned, in the world it left; when the directory is there nothing
    is made.  The script reaches this phase in every run that has detected a
    platform and created the design. *)
Theorem C10_thirdparty_directory_made_before_bios_build :
  forall (W : Type) (E : Env W) (design : MoondancerSoc.self) (s : State W),
    thirdparty = "build/lambdasoc.soc.cpu/bios/3rdparty/litex" /\
    (env_path_exists thirdparty (world s) = false ->
     build_bios design s =
       match env_makedirs thirdparty (world s) with
       | (w1, inl e) =>
           ({| world := w1;
               trace := trace s ++
                        [ EvPathExists thirdparty false;
                          EvLog INFO fixing_message;
                          EvMakedirs thirdparty ] |}, inl e)
       | (w1, inr _) =>
           let '(w2, r) := env_soc_build (MoondancerSoc.soc design) "soc" "build" true w1 in
           ({| world := w2;
               trace := trace s ++
                        [ EvPathExists thirdparty false;
                          EvLog INFO fixing_message;
                          EvMakedirs thirdparty;
                          EvLog INFO "Building bios";
                          EvSocBuild "soc" "build" true ] |}, r)
       end) /\
    (env_path_exists thirdparty (world s) = true ->
     build_bios design s =
       let '(w2, r) := env_soc_build (MoondancerSoc.soc design) "soc" "build" true (world s) in
       ({| world := w2;
           trace := trace s ++
                    [ EvPathExists thirdparty true;
                      EvLog INFO "Building bios";
                      EvSocBuild "soc" "build" true ] |}, r)) /\
    (forall s0 s1 platform,
        select_platform s0 = (s1, inr platform) ->
        create_design platform s1 = (s, inr design) ->
        main s0 =
          (build_bios design ;;
           build_soc design ;;
           generate_artifacts platform design ;;
           print completion_message) s).
Proof.
  intros W E design s. split; [reflexivity|]. split; [|split].
  - intros Hex.
    unfold build_bios, ensure_dir, os_path_exists, os_makedirs, logging_info,
      soc_build, bind, ask, emit, call, ret, build_dir. simpl. rewrite Hex. simpl.
    destruct (env_makedirs thirdparty (world s)) as [w1 [e|[]]]; simpl.
    + rewrite <- !app_assoc. reflexivity.
    + destruct (env_soc_build (MoondancerSoc.soc design) "soc" "build" true w1)
        as [w2 r]. rewrite <- !app_assoc. reflexivity.
  - intros Hex.
    unfold build_bios, ensure_dir, os_path_exists, os_makedirs, logging_info,
      soc_build, bind, ask, emit, call, ret, build_dir. simpl. rewrite Hex. simpl.
    destruct (env_soc_build (MoondancerSoc.soc design) "soc" "build" true (world s))
      as [w2 r]. rewrite <- !app_assoc. reflexivity.
  - intros s0 s1 platform H1 H2. exact (main_phases _ _ _ _ _ H1 H2).
Qed.

Lemma C10_thirdparty_directory_witness :
  exists s' evs,
    build_bios design60 (start sim_full) = (s', inr tt) /\
    trace s' = (EvPathExists thirdparty false :: EvLog INFO fixing_message ::
                EvMakedirs thirdparty :: evs) /\
    In (EvSocBuild "soc" "build" true) evs /\
    env_path_exists thirdparty (world s') = true.
Proof.
  destruct (C10_thirdparty_directory_made_before_bios_build SimWorld sim_env
              design60 (start sim_full)) as (_ & Habsent & _ & _).
  eexists. eexists. split; [rewrite (Habsent eq_refl); vm_compute; reflexivity|].
  split; [reflexivity|]. split; [simpl; auto | reflexivity].
Defined.

(** ** Optional and mandatory resources *)

Section PolicyFacts.
Context {W : Type} `{Env W}.

Lemma emits_after_cpu_reset :
  forall m, emits_only elaboration_event (after_cpu_reset (W:=W) m).
Proof.
  intros m.
  pose proof emits_platform_request as Hreq.
  pose proof emits_set_usb_device_hooks as Hhooks.
  unfold after_cpu_reset, MoondancerSoc.connect_io,
    MoondancerSoc.bind_usb0, MoondancerSoc.bind_usb1, MoondancerSoc.bind_usb2.
  cbv zeta.
  auto 30 with emits.
Qed.

Lemma after_cpu_reset_drives :
  forall m (s s' : State W) m',
    after_cpu_reset m s = (s', inr m') ->
    drives "soc.cpu.ext_reset" m' = drives "soc.cpu.ext_reset" m.
Proof.
  intros m s s' m' Hm. unfold after_cpu_reset in Hm.
  apply bind_inv_ok in Hm. destruct Hm as (s1 & m1 & H1 & Hm).
  apply bind_inv_ok in Hm. destruct Hm as (s2 & m2 & H2 & Hm).
  apply bind_inv_ok in Hm. destruct Hm as (s3 & m3 & H3 & Hm).
  apply bind_inv_ok in Hm. destruct Hm as (s4 & m4 & H4 & Hm).
  inversion Hm; subst.
  apply connect_io_ok in H1. destruct H1 as [_ Hd].
  apply bind_usb0_ok in H2. destruct H2 as (io0 & _ & ->).
  apply bind_usb1_ok in H3. destruct H3 as (io1 & ->).
  apply bind_usb2_ok in H4. destruct H4 as (io2 & ->).
  rewrite !drives_with_usb. exact Hd.
Qed.

Lemma build_soc_elaborate_fails :
  forall design (s s' : State W) e,
    MoondancerSoc.elaborate design
      (log_event (EvPlatformBuild false "build" overrides)
         (log_event (EvLog INFO "Building soc") s)) = (s', inl e) ->
    build_soc design s = (s', inl e).
Proof.
  intros design s s' e He.
  change (build_soc design s) with
    ((m <- MoondancerSoc.elaborate design ;;
      emit EvToolchain ;;
      call (env_toolchain m false "build" overrides))
       (log_event (EvPlatformBuild false "build" overrides)
          (log_event (EvLog INFO "Building soc") s))).
  unfold bind at 1. rewrite He. reflexivity.
Qed.

Lemma main_aborts_in_build_soc :
  forall (s s1 s2 s3 s4 : State W) platform design e,
    select_platform s = (s1, inr platform) ->
    create_design platform s1 = (s2, inr design) ->
    build_bios design s2 = (s3, inr tt) ->
    build_soc design s3 = (s4, inl e) ->
    main s = (s4, inl e).
Proof.
  intros s s1 s2 s3 s4 platform design e H1 H2 H3 H4.
  rewrite (main_phases _ _ _ _ _ H1 H2).
  unfold bind at 1. rewrite H3. unfold bind at 1. rewrite H4. reflexivity.
Qed.

End PolicyFacts.

(** C3: the user button is optional, the target PHY mandatory.  When the
    request for "button_user" fails, [elaborate] takes the exception, logs
    the warning and goes on with the rest of the design, which then has
    nothing driving the cpu's external reset.  When the request for
    "target_phy" fails, the exception leaves [elaborate], [platform.build]
    and the script: the run ends in the state of the failed request. *)
Theorem C3_optional_button_mandatory_phy :
  forall (W : Type) (E : Env W),
    (forall self (s s0 s1 : State W) m0 e,
        MoondancerSoc.elaborate_clocking self s = (s0, inr m0) ->
        platform_request "button_user" 0 s0 = (s1, inl e) ->
        MoondancerSoc.wire_cpu_reset m0 s0 = (log_event button_warning s1, inr m0) /\
        MoondancerSoc.elaborate self s =
          after_cpu_reset m0 (log_event button_warning s1) /\
        (forall sf mf,
            MoondancerSoc.elaborate self s = (sf, inr mf) ->
            drives "soc.cpu.ext_reset" mf = false /\
            In button_warning (trace sf))) /\
    (forall self (s s1 s2 : State W) m1 e,
        before_usb0 self s = (s1, inr m1) ->
        platform_request "target_phy" 0 s1 = (s2, inl e) ->
        MoondancerSoc.elaborate self s = (s2, inl e)) /\
    (forall design (s s' : State W) e,
        MoondancerSoc.elaborate design
          (log_event (EvPlatformBuild false "build" overrides)
             (log_event (EvLog INFO "Building soc") s)) = (s', inl e) ->
        build_soc design s = (s', inl e)) /\
    (forall (s s1 s2 s3 s4 : State W) platform design e,
        select_platform s = (s1, inr platform) ->
        create_design platform s1 = (s2, inr design) ->
        build_bios design s2 = (s3, inr tt) ->
        build_soc design s3 = (s4, inl e) ->
        main s = (s4, inl e)).
Proof.
  intros W E. split; [|split; [|split]].
  - intros self s s0 s1 m0 e Hclk Hreq.
    pose proof (wire_cpu_reset_absent m0 s0 s1 e Hreq) as Hwire.
    assert (Hel : MoondancerSoc.elaborate self s =
                  after_cpu_reset m0 (log_event button_warning s1)).
    { rewrite elaborate_after_cpu_reset. unfold bind at 1. rewrite Hclk.
      unfold bind at 1. rewrite Hwire. reflexivity. }
    split; [exact Hwire|]. split; [exact Hel|].
    intros sf mf Hmf. rewrite Hel in Hmf. split.
    + rewrite (after_cpu_reset_drives _ _ _ _ Hmf).
      rewrite (elaborate_clocking_ok _ _ _ _ Hclk). reflexivity.
    + destruct (emits_after_cpu_reset _ _ _ _ Hmf) as (evs & Ht & _).
      rewrite Ht. simpl. apply in_or_app. left. apply in_or_app. right.
      simpl. auto.
  - intros self s s1 s2 m1 e Hpre Hreq.
    rewrite elaborate_stages0. unfold bind at 1. rewrite Hpre.
    unfold MoondancerSoc.bind_usb0. unfold bind at 1. unfold bind at 1.
    rewrite Hreq. reflexivity.
  - intros design s s' e He. exact (build_soc_elaborate_fails design s s' e He).
  - intros s s1 s2 s3 s4 platform design e H1 H2 H3 H4.
    exact (main_aborts_in_build_soc _ _ _ _ _ _ _ _ H1 H2 H3 H4).
Qed.

(** On the board without a user button the whole run completes, with the
    warning in its trace; on the board without "target_phy" it ends in the
    ResourceError of that request. *)
Lemma C3_optional_button_witness :
  (exists sf mf,
      MoondancerSoc.elaborate design60 (start sim_legacy) = (sf, inr mf) /\
      drives "soc.cpu.ext_reset" mf = false /\
      In button_warning (trace sf)) /\
  (exists sf,
      main (start sim_no_target) =
        (sf, inl (Exception "ResourceError" "Resource target_phy does not exist"))) /\
  runs_to_completion (start sim_legacy).
Proof.
  destruct (C3_optional_button_mandatory_phy SimWorld sim_env)
    as (Hbutton & Htarget & Hbuild & Hmain).
  split; [|split].
  - edestruct (Hbutton design60 (start sim_legacy)) as (_ & _ & Hall).
    + vm_compute. reflexivity.
    + vm_compute. reflexivity.
    + eexists. eexists. split; [vm_compute; reflexivity|].
      eapply Hall. vm_compute. reflexivity.
  - eexists. eapply (Hmain (start sim_no_target)).
    + vm_compute. reflexivity.
    + vm_compute. reflexivity.
    + vm_compute. reflexivity.
    + apply Hbuild. eapply Htarget.
      * vm_compute. reflexivity.
      * vm_compute. reflexivity.
  - eexists. split; [vm_compute; reflexivity|]. vm_compute. tauto.
Defined.

(** ** The artifacts of a successful run *)

Lemma artifact_view_app :
  forall l1 l2, artifact_view (l1 ++ l2) = (artifact_view l1 ++ artifact_view l2)%list.
Proof. intros. apply filter_app. Qed.

Lemma artifact_view_quiet :
  forall evs,
    forallb (fun ev => negb (artifact_event ev)) evs = true -> artifact_view evs = [].
Proof.
  induction evs as [|ev evs IH]; simpl; intros Hq; [reflexivity|].
  apply andb_prop in Hq. destruct Hq as [Hev Hq].
  destruct (artifact_event ev); [discriminate | auto].
Qed.

Lemma opened_view : forall evs, opened (artifact_view evs) = opened evs.
Proof.
  induction evs as [|ev evs IH]; simpl; [reflexivity|].
  destruct ev; simpl; rewrite ?IH; reflexivity.
Qed.

Lemma generated_view : forall evs, generated (artifact_view evs) = generated evs.
Proof.
  induction evs as [|ev evs IH]; simpl; [reflexivity|].
  destruct ev; simpl; rewrite ?IH; reflexivity.
Qed.

Lemma made_view : forall evs, made (artifact_view evs) = made evs.
Proof.
  induction evs as [|ev evs IH]; simpl; [reflexivity|].
  destruct ev; simpl; rewrite ?IH; reflexivity.
Qed.

Lemma in_artifact_view :
  forall ev evs, artifact_event ev = true -> (In ev (artifact_view evs) <-> In ev evs).
Proof.
  intros ev evs Hev. unfold artifact_view. rewrite filter_In. tauto.
Qed.

Lemma all_after_view :
  forall a b,
    (forall ev, a ev = true -> artifact_event ev = true) ->
    (forall ev, b ev = true -> artifact_event ev = true) ->
    forall evs, all_after a b (artifact_view evs) = all_after a b evs.
Proof.
  intros a b Ha Hb. induction evs as [|ev evs IH]; simpl; [reflexivity|].
  destruct (artifact_event ev) eqn:Hev; simpl.
  - rewrite IH. reflexivity.
  - destruct (a ev) eqn:Hx; [rewrite (Ha _ Hx) in Hev; discriminate|].
    destruct (b ev) eqn:Hy; [rewrite (Hb _ Hy) in Hev; discriminate|].
    exact IH.
Qed.

Lemma all_after_spec :
  forall a b l,
    all_after a b l = true ->
    forall pre x post,
      l = (pre ++ x :: post)%list -> b x = true ->
      exists y, In y pre /\ a y = true.
Proof.
  intros a b l. induction l as [|h l IH]; intros Hall pre x post Hl Hx.
  - destruct pre; discriminate.
  - simpl in Hall. apply andb_prop in Hall. destruct Hall as [Hb Hall].
    destruct pre as [|p pre]; simpl in Hl; inversion Hl; subst.
    + rewrite Hx in Hb. discriminate.
    + destruct (a p) eqn:Hap.
      * exists p. simpl. auto.
      * simpl in Hall.
        destruct (IH Hall pre x post eq_refl Hx) as (y & Hy & Hay).
        exists y. simpl. auto.
Qed.

Section ArtifactFacts.
Context {W : Type} `{Env W}.

Lemma ensure_dir_ok :
  forall path log (s s' : State W),
    ensure_dir path log s = (s', inr tt) ->
    exists present evs,
      trace s' = (trace s ++ evs)%list /\
      artifact_view evs = on_demand path present.
Proof.
  intros path log s s' Hd.
  unfold ensure_dir, os_path_exists, os_makedirs, logging_info,
    bind, ask, emit, call, ret in Hd. simpl in Hd.
  destruct (env_path_exists path (world s)) eqn:Hex; simpl in Hd.
  - inversion Hd; subst. exists true, [EvPathExists path true].
    split; reflexivity.
  - destruct log as [msg|]; simpl in Hd;
      match type of Hd with
      | context [env_makedirs path ?w] =>
          destruct (env_makedirs path w) as [w1 [e|[]]]
      end; inversion Hd; subst; simpl.
    + exists false, [EvPathExists path false; EvLog INFO msg; EvMakedirs path].
      rewrite <- !app_assoc. split; reflexivity.
    + exists false, [EvPathExists path false; EvMakedirs path].
      rewrite <- !app_assoc. split; reflexivity.
Qed.

Lemma with_open_generate_ok :
  forall soc kind pn path (s s' : State W),
    with_open path "w" (generate soc kind pn path) s = (s', inr tt) ->
    trace s' = (trace s ++ written kind pn path)%list.
Proof.
  intros soc kind pn path s s' Hw.
  unfold with_open, generate, try_finally, bind, emit, call in Hw. simpl in Hw.
  destruct (env_open path "w" (world s)) as [w1 [e|[]]]; [discriminate|].
  simpl in Hw.
  destruct (env_generate kind soc pn path w1) as [w2 [e|[]]]; simpl in Hw;
    destruct (env_close path w2) as [w3 [e'|[]]]; inversion Hw; subst; simpl.
  unfold written. rewrite <- !app_assoc. reflexivity.
Qed.

Lemma emits_setup_quiet :
  forall platform,
    emits_only (fun ev => negb (artifact_event ev)) (select_platform (W:=W)) /\
    emits_only (fun ev => negb (artifact_event ev)) (create_design (W:=W) platform).
Proof.
  intros platform.
  unfold select_platform, create_design,
    configure_default_logging, logging_setLevel, get_appropriate_platform,
    logging_error, logging_info, sys_exit.
  split;
    repeat first
      [ apply emits_bind; [| intros]
      | apply emits_emit; reflexivity
      | apply emits_call | apply emits_ret | apply emits_raise
      | match goal with
        | |- emits_only _ (match ?x with _ => _ end) => destruct x
        end ].
Qed.

Lemma build_bios_ok :
  forall design (s s' : State W),
    build_bios design s = (s', inr tt) ->
    exists present evs,
      trace s' = (trace s ++ evs)%list /\
      artifact_view evs =
        (on_demand thirdparty present ++ [EvSocBuild "soc" "build" true])%list.
Proof.
  intros design s s' Hb. unfold build_bios in Hb.
  apply bind_inv_ok in Hb. destruct Hb as (s1 & [] & Hd & Hb).
  apply ensure_dir_ok in Hd. destruct Hd as (present & evs & Ht & Hv).
  unfold logging_info, soc_build, bind, emit, call in Hb. simpl in Hb.
  match type of Hb with
  | context [env_soc_build ?a ?b ?c ?d ?w] =>
      destruct (env_soc_build a b c d w) as [w2 [e|[]]]
  end; inversion Hb; subst; simpl.
  exists present,
    (evs ++ [EvLog INFO "Building bios"; EvSocBuild "soc" "build" true])%list.
  rewrite Ht, artifact_view_app, Hv, <- !app_assoc. split; reflexivity.
Qed.

Lemma build_soc_ok :
  forall design (s s' : State W),
    build_soc design s = (s', inr tt) ->
    exists evs,
      trace s' = (trace s ++ evs)%list /\ artifact_view evs = [EvToolchain].
Proof.
  intros design s s' Hb.
  unfold build_soc, platform_build, logging_info in Hb.
  apply bind_inv_ok in Hb. destruct Hb as (s1 & [] & H1 & Hb).
  apply bind_inv_ok in Hb. destruct Hb as (s2 & [] & H2 & Hb).
  apply bind_inv_ok in Hb. destruct Hb as (s3 & m & H3 & Hb).
  apply bind_inv_ok in Hb. destruct Hb as (s4 & [] & H4 & Hb).
  inversion H1; subst; clear H1. inversion H2; subst; clear H2.
  inversion H4; subst; clear H4.
  destruct (emits_elaborate _ _ _ _ H3) as (evs & Ht & Hq).
  unfold call in Hb. simpl in Hb.
  match type of Hb with
  | context [env_toolchain ?a ?b ?c ?d ?w] =>
      destruct (env_toolchain a b c d w) as [w2 [e|[]]]
  end; inversion Hb; subst; simpl.
  rewrite Ht. simpl.
  exists ([EvLog INFO "Building soc"; EvPlatformBuild false build_dir overrides]
            ++ evs ++ [EvToolchain])%list.
  split; [rewrite <- !app_assoc; reflexivity|].
  rewrite !artifact_view_app. rewrite (artifact_view_quiet evs); [reflexivity|].
  rewrite forallb_forall in *. intros ev Hin. specialize (Hq ev Hin).
  destruct ev; try discriminate; try reflexivity.
Qed.

Lemma generate_artifacts_ok :
  forall platform design (s s' : State W),
    generate_artifacts platform design s = (s', inr tt) ->
    exists d1 d2 d3 evs,
      trace s' = (trace s ++ evs)%list /\
      artifact_view evs =
        (on_demand "build/genc" d1 ++
         written c_header (Some (name platform)) "build/genc/resources.h" ++
         written ld_script None "build/genc/soc.ld" ++
         on_demand "build/gensvd" d2 ++
         written svd None "build/gensvd/lunasoc.svd" ++
         on_demand "build/genrust" d3 ++
         written memory_x None "build/genrust/memory.x")%list.
Proof.
  intros platform design s s' Hg. unfold generate_artifacts in Hg.
  cbv zeta in Hg.
  apply bind_inv_ok in Hg. destruct Hg as (s1 & [] & Hlog & Hg).
  apply bind_inv_ok in Hg. destruct Hg as (s2 & [] & Hd1 & Hg).
  apply bind_inv_ok in Hg. destruct Hg as (s3 & [] & Hl1 & Hg).
  apply bind_inv_ok in Hg. destruct Hg as (s4 & [] & Hw1 & Hg).
  apply bind_inv_ok in Hg. destruct Hg as (s5 & [] & Hw2 & Hg).
  apply bind_inv_ok in Hg. destruct Hg as (s6 & [] & Hd2 & Hg).
  apply bind_inv_ok in Hg. destruct Hg as (s7 & [] & Hl2 & Hg).
  apply bind_inv_ok in Hg. destruct Hg as (s8 & [] & Hw3 & Hg).
  apply bind_inv_ok in Hg. destruct Hg as (s9 & [] & Hd3 & Hg).
  apply bind_inv_ok in Hg. destruct Hg as (s10 & [] & Hl3 & Hw4).
  assert (Ht1 : trace s1 = (trace s ++ [EvLogResources])%list).
  { unfold log_resources, bind, emit, call in Hlog. simpl in Hlog.
    destruct (env_log_resources (MoondancerSoc.soc design) (world s))
      as [w1 [e|[]]]; inversion Hlog; reflexivity. }
  apply ensure_dir_ok in Hd1. destruct Hd1 as (d1 & e1 & Ht2 & Hv1).
  apply ensure_dir_ok in Hd2. destruct Hd2 as (d2 & e2 & Ht6 & Hv2).
  apply ensure_dir_ok in Hd3. destruct Hd3 as (d3 & e3 & Ht9 & Hv3).
  inversion Hl1; subst s3; clear Hl1.
  inversion Hl2; subst s7; clear Hl2.
  inversion Hl3; subst s10; clear Hl3.
  apply with_open_generate_ok in Hw1, Hw2, Hw3, Hw4.
  simpl trace in *.
  exists d1, d2, d3.
  eexists. split.
  - rewrite Hw4, Ht9, Hw3, Ht6, Hw2, Hw1, Ht2, Ht1.
    rewrite <- !app_assoc. reflexivity.
  - rewrite !artifact_view_app, Hv1, Hv2, Hv3. reflexivity.
Qed.

End ArtifactFacts.

(** C7: in a run of the script that ends normally, the build-tree events
    are, in this order: the third-party directory made on demand and the
    bios build; the toolchain run; then "build/genc" made on demand,
    resources.h and soc.ld written; "build/gensvd" made on demand,
    lunasoc.svd written; "build/genrust" made on demand, memory.x written.
    So the script opens exactly the four artifact files, each for writing;
    it runs each of the four generators exactly once, on its own file, after
    the toolchain run, in the state the build phase returned normally; and
    each output directory is made exactly when the check finds it absent. *)
Theorem C7_successful_run_artifacts :
  forall (W : Type) (E : Env W) (s sf : State W),
    main s = (sf, inr tt) ->
    exists evs platform d0 d1 d2 d3,
      (exists design s3 s4 s5,
          build_soc design s3 = (s4, inr tt) /\
          generate_artifacts platform design s4 = (s5, inr tt) /\
          sf = log_event (EvPrint completion_message) s5) /\
      trace sf = (trace s ++ evs)%list /\
      artifact_view evs =
        (on_demand thirdparty d0 ++
         [EvSocBuild "soc" "build" true; EvToolchain] ++
         on_demand "build/genc" d1 ++
         written c_header (Some (name platform)) "build/genc/resources.h" ++
         written ld_script None "build/genc/soc.ld" ++
         on_demand "build/gensvd" d2 ++
         written svd None "build/gensvd/lunasoc.svd" ++
         on_demand "build/genrust" d3 ++
         written memory_x None "build/genrust/memory.x")%list /\
      opened evs =
        [ ("build/genc/resources.h", "w"); ("build/genc/soc.ld", "w");
          ("build/gensvd/lunasoc.svd", "w"); ("build/genrust/memory.x", "w") ] /\
      generated evs =
        [ (c_header, "build/genc/resources.h"); (ld_script, "build/genc/soc.ld");
          (svd, "build/gensvd/lunasoc.svd"); (memory_x, "build/genrust/memory.x") ] /\
      (forall pre ev post,
          evs = (pre ++ ev :: post)%list -> is_generate ev = true ->
          In EvToolchain pre) /\
      (forall d,
          In d ["build/genc"; "build/gensvd"; "build/genrust"] ->
          (In (EvMakedirs d) evs <-> In (EvPathExists d false) evs)) /\
      incl (made evs) [thirdparty; "build/genc"; "build/gensvd"; "build/genrust"].
Proof.
  intros W E s sf Hm.
  destruct (main_inv_ok _ _ Hm)
    as (s1 & s2 & s3 & s4 & s5 & platform & design & H1 & H2 & H3 & H4 & H5 & ->).
  destruct (emits_setup_quiet platform) as [Hsel Hcre].
  destruct (Hsel _ _ _ H1) as (e1 & Ht1 & Hq1).
  destruct (Hcre _ _ _ H2) as (e2 & Ht2 & Hq2).
  destruct (build_bios_ok _ _ _ H3) as (d0 & e3 & Ht3 & Hv3).
  destruct (build_soc_ok _ _ _ H4) as (e4 & Ht4 & Hv4).
  destruct (generate_artifacts_ok _ _ _ _ H5) as (d1 & d2 & d3 & e5 & Ht5 & Hv5).
  set (evs := (e1 ++ e2 ++ e3 ++ e4 ++ e5 ++ [EvPrint completion_message])%list).
  assert (Hview :
    artifact_view evs =
      (on_demand thirdparty d0 ++
       [EvSocBuild "soc" "build" true; EvToolchain] ++
       on_demand "build/genc" d1 ++
       written c_header (Some (name platform)) "build/genc/resources.h" ++
       written ld_script None "build/genc/soc.ld" ++
       on_demand "build/gensvd" d2 ++
       written svd None "build/gensvd/lunasoc.svd" ++
       on_demand "build/genrust" d3 ++
       written memory_x None "build/genrust/memory.x")%list).
  { unfold evs. rewrite !artifact_view_app.
    rewrite (artifact_view_quiet e1 Hq1), (artifact_view_quiet e2 Hq2).
    rewrite Hv3, Hv4, Hv5. simpl. rewrite <- !app_assoc. simpl.
    rewrite app_nil_r. reflexivity. }
  exists evs, platform, d0, d1, d2, d3.
  split; [exists design, s3, s4, s5; auto|].
  split; [|split; [exact Hview|]].
  { unfold evs. simpl. rewrite Ht5, Ht4, Ht3, Ht2, Ht1.
    rewrite <- !app_assoc. reflexivity. }
  split; [|split; [|split; [|split]]].
  - (rewrite <- opened_view, Hview; destruct d0, d1, d2, d3; reflexivity).
  - rewrite <- generated_view, Hview. destruct d0, d1, d2, d3; reflexivity.
  - intros pre ev post Hsplit Hgen.
    assert (Hall : all_after is_toolchain is_generate evs = true).
    { rewrite <- (all_after_view is_toolchain is_generate).
      - rewrite Hview. destruct d0, d1, d2, d3; reflexivity.
      - intros []; simpl; congruence.
      - intros []; simpl; congruence. }
    destruct (all_after_spec _ _ _ Hall pre ev post Hsplit Hgen) as (y & Hy & Hty).
    destruct y; try discriminate. exact Hy.
  - intros d Hd.
    rewrite <- (in_artifact_view (EvMakedirs d) evs eq_refl).
    rewrite <- (in_artifact_view (EvPathExists d false) evs eq_refl).
    rewrite Hview. simpl in Hd.
    (destruct Hd as [<-|[<-|[<-|[]]]]; destruct d0, d1, d2, d3;
      vm_compute; split; intros Hin;
      first [ solve [repeat (first [left; reflexivity | right])]
            | exfalso;
              repeat (destruct Hin as [Hin|Hin]; [discriminate Hin|]);
              exact Hin ]).
  - rewrite <- made_view, Hview.
    (destruct d0, d1, d2, d3; intros x Hx; vm_compute in Hx |- *; tauto).
Qed.

Lemma C7_successful_run_witness :
  exists sf,
    main (start sim_full) = (sf, inr tt) /\
    opened (trace sf) =
      [ ("build/genc/resources.h", "w"); ("build/genc/soc.ld", "w");
        ("build/gensvd/lunasoc.svd", "w"); ("build/genrust/memory.x", "w") ] /\
    generated (trace sf) =
      [ (c_header, "build/genc/resources.h"); (ld_script, "build/genc/soc.ld");
        (svd, "build/gensvd/lunasoc.svd"); (memory_x, "build/genrust/memory.x") ].
Proof.
  eexists. split; [vm_compute; reflexivity|].
  edestruct (C7_successful_run_artifacts SimWorld sim_env (start sim_full))
    as (evs & p & d0 & d1 & d2 & d3 & _ & Ht & _ & Ho & Hg & _).
  - vm_compute. reflexivity.
  - change (trace (start sim_full) ++ evs)%list with evs in Ht.
    rewrite Ht. split; [exact Ho | exact Hg].
Defined.
